(** * Ubuntu image fetcher: a shallow embedding of [Ubuntu_image-fetcher.py]

    The development follows the script top-down: the Python string and
    path primitives the script calls, the filename sanitizer, the helpers
    ([make_unique_path], [ext_from_content_type], [load_index]) and then the
    core routine [download_image], which is written as a function from the
    observable inputs of one call (response, filesystem, index, limits) to
    its result and the filesystem and index it leaves behind.

    Conventions of the model:
    - paths are POSIX paths, and the output directory is a finite map from
      path to file content (regular files only); removing a file that
      exists succeeds;
    - the network and the disk enter through the inputs of a call: the
      outcome of [session.get], the chunks of the body and whether the
      transfer or a write breaks off after them, whether [open] and
      [os.replace] raise, and the clock;
    - a URL comes with the path component [urlparse] reports for it;
    - the index is a Python value, mutated in place by the script and
      therefore passed in and handed back.

    Outside the model: an exception of [session.get] that is not a
    [RequestException] (the routine does not catch it, and it leaves the
    call before anything is written); an [os.remove] that fails, as on a
    directory that sits at the temporary path; and, in the command-line
    flow, a failing [os.makedirs], [input], read of the URL file,
    [time.sleep] (a negative delay) or write of the index file.  Each of
    them ends the call or the run with an exception.  The properties below
    are therefore stated about what a call or a run leaves on disk and in
    the index, and about calls and runs that return; where a lemma says
    that a call ends as [Saved] or [Failed], it speaks of the outcomes the
    model has. *)

From Stdlib Require Import ZArith NArith List Ascii String Lia Bool.
From Stdlib Require Import DecimalNat DecimalString.
From stdpp Require Import gmap list.

Local Open Scope N_scope.

(** ** Python strings

    A Python [str] is a sequence of Unicode code points; a code point is a
    number.  Literals of the script are written with [py]. *)

Abbreviation pystr := (list N).

Definition py (s : string) : pystr :=
  map N_of_ascii (list_ascii_of_string s).

Definition ch (a : ascii) : N := N_of_ascii a.

(** [not s]: truth value of a string is non-emptiness. *)
Definition str_empty (s : pystr) : bool :=
  match s with [] => true | _ => false end.

Definition str_eqb (a b : pystr) : bool := bool_decide (a = b).

Fixpoint startswith (p s : pystr) : bool :=
  match p, s with
  | [], _ => true
  | x :: p', y :: s' => (x =? y) && startswith p' s'
  | _ :: _, [] => false
  end.

Definition endswith (p s : pystr) : bool := startswith (rev p) (rev s).

(** [c in s] for a one-character [c]. *)
Definition contains_char (c : N) (s : pystr) : bool := existsb (N.eqb c) s.

(** [sub in s]: substring test. *)
Fixpoint contains_str (sub s : pystr) : bool :=
  startswith sub s ||
  match s with
  | [] => false
  | _ :: s' => contains_str sub s'
  end.

(** [s.rfind(c)]: index of the last occurrence, -1 when there is none. *)
Fixpoint rfind_from (c : N) (s : pystr) (i last : Z) : Z :=
  match s with
  | [] => last
  | x :: s' => rfind_from c s' (i + 1)%Z (if x =? c then i else last)
  end.

Definition rfind (c : N) (s : pystr) : Z := rfind_from c s 0%Z (-1)%Z.

(** [s.split(c)]: the pieces between occurrences of [c]; never empty. *)
Fixpoint split_on (c : N) (s : pystr) : list pystr :=
  match s with
  | [] => [[]]
  | x :: s' =>
      match split_on c s' with
      | piece :: pieces =>
          if x =? c then [] :: piece :: pieces else (x :: piece) :: pieces
      | [] => [[]]
      end
  end.

(** Slices [s[i:]] and [s[:i]] for a non-negative index. *)
Definition slice_from (i : Z) (s : pystr) : pystr := drop (Z.to_nat i) s.
Definition slice_to (i : Z) (s : pystr) : pystr := take (Z.to_nat i) s.

(** Whitespace of [str.strip()] ([str.isspace]). *)
Definition isspace (c : N) : bool :=
  ((0x09 <=? c) && (c <=? 0x0D)) || ((0x1C <=? c) && (c <=? 0x20))
  || (c =? 0x85) || (c =? 0xA0) || (c =? 0x1680)
  || ((0x2000 <=? c) && (c <=? 0x200A))
  || (c =? 0x2028) || (c =? 0x2029) || (c =? 0x202F) || (c =? 0x205F)
  || (c =? 0x3000).

Fixpoint lstrip (s : pystr) : pystr :=
  match s with
  | c :: s' => if isspace c then lstrip s' else s
  | [] => []
  end.

Definition strip (s : pystr) : pystr := rev (lstrip (rev (lstrip s))).

(** [str.lower()].  Header values reach the script decoded as ISO-8859-1
    (code points below 256); on that range lowering moves A-Z and the
    accented capitals C0-DE (D7 apart) up by 32 and fixes the rest. *)
Definition lower_char (c : N) : N :=
  if ((0x41 <=? c) && (c <=? 0x5A))
     || ((0xC0 <=? c) && (c <=? 0xDE) && negb (c =? 0xD7))
  then c + 32 else c.

Definition lower (s : pystr) : pystr := map lower_char s.

(** ** [urllib.parse.unquote]

    Percent-decoding: the ASCII runs of the string are turned into bytes,
    every [%XX] with two hexadecimal digits becomes the byte it names, and
    the bytes are decoded as UTF-8 with [errors='replace'].  Runs of
    non-ASCII characters pass through.  A string without [%] is returned
    as it is. *)

Definition hexval (c : N) : option N :=
  if (0x30 <=? c) && (c <=? 0x39) then Some (c - 0x30)
  else if (0x41 <=? c) && (c <=? 0x46) then Some (c - 0x41 + 10)
  else if (0x61 <=? c) && (c <=? 0x66) then Some (c - 0x61 + 10)
  else None.

(** One piece that followed a [%]: [_hextobyte[item[:2]] + item[2:]], or
    the piece with its [%] put back when the two characters are not
    hexadecimal digits. *)
Definition unquote_item (item : pystr) : pystr :=
  match item with
  | h :: l :: rest =>
      match hexval h, hexval l with
      | Some a, Some b => (16 * a + b) :: rest
      | _, _ => ch "%" :: item
      end
  | _ => ch "%" :: item
  end.

Definition unquote_to_bytes (s : pystr) : list N :=
  match split_on (ch "%") s with
  | first :: items => first ++ concat (map unquote_item items)
  | [] => []
  end.

Definition replacement_char : N := 0xFFFD.

Definition is_cont (b : N) : bool := (0x80 <=? b) && (b <=? 0xBF).

(** Second byte of a three-byte form: E0 needs A0-BF, ED needs 80-9F. *)
Definition second_of3 (b0 b1 : N) : bool :=
  is_cont b1 &&
  (if b0 =? 0xE0 then 0xA0 <=? b1 else if b0 =? 0xED then b1 <=? 0x9F else true).

(** Second byte of a four-byte form: F0 needs 90-BF, F4 needs 80-8F. *)
Definition second_of4 (b0 b1 : N) : bool :=
  is_cont b1 &&
  (if b0 =? 0xF0 then 0x90 <=? b1 else if b0 =? 0xF4 then b1 <=? 0x8F else true).

Definition low6 (b : N) : N := N.land b 0x3F.

(** [bytes.decode('utf-8', 'replace')]: every maximal ill-formed prefix of a
    sequence is replaced by one U+FFFD, and decoding resumes after it. *)
Fixpoint utf8_decode (bs : list N) : pystr :=
  match bs with
  | [] => []
  | b0 :: r0 =>
      if b0 <? 0x80 then b0 :: utf8_decode r0
      else if b0 <? 0xC2 then replacement_char :: utf8_decode r0
      else if b0 <? 0xE0 then
        match r0 with
        | [] => [replacement_char]
        | b1 :: r1 =>
            if is_cont b1
            then (N.shiftl (N.land b0 0x1F) 6 + low6 b1) :: utf8_decode r1
            else replacement_char :: utf8_decode r0
        end
      else if b0 <? 0xF0 then
        match r0 with
        | [] => [replacement_char]
        | b1 :: r1 =>
            if second_of3 b0 b1 then
              match r1 with
              | [] => [replacement_char]
              | b2 :: r2 =>
                  if is_cont b2
                  then (N.shiftl (N.land b0 0x0F) 12 + N.shiftl (low6 b1) 6
                        + low6 b2) :: utf8_decode r2
                  else replacement_char :: utf8_decode r1
              end
            else replacement_char :: utf8_decode r0
        end
      else if b0 <? 0xF5 then
        match r0 with
        | [] => [replacement_char]
        | b1 :: r1 =>
            if second_of4 b0 b1 then
              match r1 with
              | [] => [replacement_char]
              | b2 :: r2 =>
                  if is_cont b2 then
                    match r2 with
                    | [] => [replacement_char]
                    | b3 :: r3 =>
                        if is_cont b3
                        then (N.shiftl (N.land b0 0x07) 18
                              + N.shiftl (low6 b1) 12 + N.shiftl (low6 b2) 6
                              + low6 b3) :: utf8_decode r3
                        else replacement_char :: utf8_decode r2
                    end
                  else replacement_char :: utf8_decode r1
              end
            else replacement_char :: utf8_decode r0
        end
      else replacement_char :: utf8_decode r0
  end.

Definition is_ascii (c : N) : bool := c <? 0x80.

(** The string cut into maximal runs of ASCII and of non-ASCII characters
    (what [_asciire.split] yields), each tagged with its kind. *)
Fixpoint ascii_runs (s : pystr) : list (bool * pystr) :=
  match s with
  | [] => []
  | c :: s' =>
      match ascii_runs s' with
      | (b, run) :: runs =>
          if eqb b (is_ascii c) then (b, c :: run) :: runs
          else (is_ascii c, [c]) :: (b, run) :: runs
      | [] => [(is_ascii c, [c])]
      end
  end.

Definition unquote (s : pystr) : pystr :=
  if negb (contains_char (ch "%") s) then s
  else concat (map (fun r : bool * pystr =>
                      if r.1 then utf8_decode (unquote_to_bytes r.2) else r.2)
                   (ascii_runs s)).

(** ** [os.path] (POSIX flavour) *)

Definition sep : N := ch "/".

(** [os.path.basename(p)]: [p[p.rfind('/') + 1:]]. *)
Definition basename (p : pystr) : pystr := slice_from (rfind sep p + 1) p.

(** [os.path.join(a, b)]. *)
Definition path_join (a b : pystr) : pystr :=
  if startswith [sep] b then b
  else if str_empty a || endswith [sep] a then a ++ b
  else a ++ sep :: b.

(** The loop of [genericpath._splitext] that skips the leading dots of the
    last component: is some character in [p[filenameIndex:dotIndex]] not a
    dot? *)
Definition has_non_dot (p : pystr) (filenameIndex dotIndex : Z) : bool :=
  existsb (fun c => negb (c =? ch "."))
          (slice_to (dotIndex - filenameIndex) (slice_from filenameIndex p)).

(** [os.path.splitext(p)]. *)
Definition splitext (p : pystr) : pystr * pystr :=
  let sepIndex := rfind sep p in
  let dotIndex := rfind (ch ".") p in
  if (sepIndex <? dotIndex)%Z && has_non_dot p (sepIndex + 1) dotIndex
  then (slice_to dotIndex p, slice_from dotIndex p)
  else (p, []).

(** ** Filename sanitizer *)

Definition placeholder_name : pystr := py "downloaded_image".

(** The class [[A-Za-z0-9._-]]. *)
Definition safe_char (c : N) : bool :=
  ((0x41 <=? c) && (c <=? 0x5A)) || ((0x61 <=? c) && (c <=? 0x7A))
  || ((0x30 <=? c) && (c <=? 0x39))
  || (c =? ch ".") || (c =? ch "_") || (c =? ch "-").

(** [re.sub(r"[^A-Za-z0-9._-]", "_", name)]. *)
Definition replace_unsafe (name : pystr) : pystr :=
  map (fun c => if safe_char c then c else ch "_") name.

(** [re.sub(r"_+", "_", name)]: an underscore that opens a run is kept, the
    rest of the run is dropped. *)
Fixpoint collapse_from (in_run : bool) (name : pystr) : pystr :=
  match name with
  | [] => []
  | c :: rest =>
      if c =? ch "_"
      then (if in_run then collapse_from true rest
            else c :: collapse_from true rest)
      else c :: collapse_from false rest
  end.

Definition collapse_underscores (name : pystr) : pystr :=
  collapse_from false name.

Definition sanitize_filename (name : pystr) : pystr :=
  let name := if str_empty name then placeholder_name else name in
  let name := unquote name in
  let name := basename name in
  let name := replace_unsafe name in
  let name := collapse_underscores name in
  take 200 name.

(** ** SHA-256, as [hashlib.sha256] computes it (FIPS 180-4)

    Words are 32-bit values kept in [Z]; additions wrap with [w32]. *)

Module SHA256.
Local Open Scope Z_scope.

Definition w32 (x : Z) : Z := Z.land x 0xFFFFFFFF.
Definition add32 (a b : Z) : Z := w32 (a + b).
Definition rotr (n x : Z) : Z :=
  Z.lor (Z.shiftr x n) (w32 (Z.shiftl x (32 - n))).
Definition not32 (x : Z) : Z := Z.lxor x 0xFFFFFFFF.
Definition xor3 (a b c : Z) : Z := Z.lxor (Z.lxor a b) c.

Definition Ch (x y z : Z) : Z := Z.lxor (Z.land x y) (Z.land (not32 x) z).
Definition Maj (x y z : Z) : Z :=
  xor3 (Z.land x y) (Z.land x z) (Z.land y z).
Definition Sigma0 (x : Z) : Z := xor3 (rotr 2 x) (rotr 13 x) (rotr 22 x).
Definition Sigma1 (x : Z) : Z := xor3 (rotr 6 x) (rotr 11 x) (rotr 25 x).
Definition sigma0 (x : Z) : Z := xor3 (rotr 7 x) (rotr 18 x) (Z.shiftr x 3).
Definition sigma1 (x : Z) : Z := xor3 (rotr 17 x) (rotr 19 x) (Z.shiftr x 10).

(** The round constants are the first 32 bits of the fractional parts of
    the cube roots of the first 64 primes, the initial hash value those of
    the square roots of the first 8. *)

Definition primes : list Z :=
  [ 2; 3; 5; 7; 11; 13; 17; 19; 23; 29; 31; 37; 41; 43; 47; 53; 59; 61; 67;
    71; 73; 79; 83; 89; 97; 101; 103; 107; 109; 113; 127; 131; 137; 139; 149;
    151; 157; 163; 167; 173; 179; 181; 191; 193; 197; 199; 211; 223; 227; 229;
    233; 239; 241; 251; 257; 263; 269; 271; 277; 281; 283; 293; 307; 311 ].

(** Integer cube root, one bit at a time from bit [n - 1] down. *)
Fixpoint cube_root_bits (n : nat) (x root : Z) : Z :=
  match n with
  | O => root
  | S n' =>
      let next := root + Z.shiftl 1 (Z.of_nat n') in
      if next * next * next <=? x then cube_root_bits n' x next
      else cube_root_bits n' x root
  end.

Definition K : list Z :=
  Eval vm_compute in
    map (fun p => w32 (cube_root_bits 36 (Z.shiftl p 96) 0)) primes.

Definition H0 : list Z :=
  Eval vm_compute in
    map (fun p => w32 (Z.sqrt (Z.shiftl p 64))) (take 8 primes).

(** Big-endian bytes of a value, [n] of them. *)
Fixpoint be_bytes (n : nat) (x : Z) : list Z :=
  match n with
  | O => []
  | S n' => Z.land (Z.shiftr x (8 * Z.of_nat n')) 0xFF :: be_bytes n' x
  end.

(** Padding: a one bit, zeros up to 56 modulo 64, the bit length on 64 bits. *)
Definition pad (msg : list Z) : list Z :=
  let len := Z.of_nat (length msg) in
  msg ++ 0x80 :: repeat 0 (Z.to_nat ((55 - len) mod 64)) ++ be_bytes 8 (8 * len).

Fixpoint be_words (bs : list Z) : list Z :=
  match bs with
  | a :: b :: c :: d :: rest =>
      (Z.shiftl a 24 + Z.shiftl b 16 + Z.shiftl c 8 + d) :: be_words rest
  | _ => []
  end.

(** The message schedule, most recent word first. *)
Fixpoint extend (n : nat) (w : list Z) : list Z :=
  match n with
  | O => w
  | S n' =>
      let x := add32 (add32 (sigma1 (nth 1 w 0)) (nth 6 w 0))
                     (add32 (sigma0 (nth 14 w 0)) (nth 15 w 0)) in
      extend n' (x :: w)
  end.

Definition schedule (block : list Z) : list Z :=
  rev (extend 48 (rev (be_words block))).

Definition round (s : list Z) (kw : Z * Z) : list Z :=
  match s with
  | [a; b; c; d; e; f; g; h] =>
      let t1 := add32 (add32 (add32 h (Sigma1 e)) (Ch e f g))
                      (add32 kw.1 kw.2) in
      let t2 := add32 (Sigma0 a) (Maj a b c) in
      [add32 t1 t2; a; b; c; add32 d t1; e; f; g]
  | _ => s
  end.

Definition compress (h : list Z) (block : list Z) : list Z :=
  zip_with add32 h (fold_left round (zip K (schedule block)) h).

Fixpoint blocks (fuel : nat) (h : list Z) (bs : list Z) : list Z :=
  match fuel, bs with
  | S fuel', _ :: _ => blocks fuel' (compress h (take 64 bs)) (drop 64 bs)
  | _, _ => h
  end.

Definition hex_digit (d : Z) : N :=
  Z.to_N (if d <? 10 then 0x30 + d else 0x61 + d - 10).

Fixpoint hex_word (n : nat) (x : Z) : pystr :=
  match n with
  | O => []
  | S n' => hex_digit (Z.land (Z.shiftr x (4 * Z.of_nat n')) 0xF) :: hex_word n' x
  end.

Definition digest_words (msg : list Byte.byte) : list Z :=
  let bs := pad (map (fun b => Z.of_N (Byte.to_N b)) msg) in
  blocks (length bs) H0 bs.

(** [hashlib.sha256(msg).hexdigest()]. *)
Definition hexdigest (msg : list Byte.byte) : pystr :=
  concat (map (hex_word 8) (digest_words msg)).

End SHA256.

Definition bytes_of (s : string) : list Byte.byte := list_byte_of_string s.

(** ** Values, files and the index

    The index is whatever [json.load] produced (or the empty dict), so it is
    modelled as a JSON-shaped Python value; the records the script inserts
    are dicts of strings and integers. *)

Abbreviation bytes := (list Byte.byte).

#[local] Set Warnings "-register-all".

(** [None], booleans, integers, floats (kept as a pair of integers, which
    nothing below looks into), strings, lists, and dicts with string keys. *)
Inductive pyval :=
| VNone
| VBool (b : bool)
| VInt (z : Z)
| VFloat (mantissa exponent : Z)
| VStr (s : pystr)
| VList (l : list pyval)
| VDict (d : gmap pystr pyval).

(** The output directory: regular files by path. *)
Abbreviation filesystem := (gmap pystr bytes).

(** [os.path.exists(p)], for the regular files of the map. *)
Definition path_exists (fs : filesystem) (p : pystr) : bool :=
  match fs !! p with Some _ => true | None => false end.

(** [if os.path.exists(p): os.remove(p)], where the removal succeeds. *)
Definition remove_if_exists (p : pystr) (fs : filesystem) : filesystem :=
  if path_exists fs p then delete p fs else fs.

(** [os.replace(src, dst)] when it succeeds. *)
Definition os_replace (src dst : pystr) (fs : filesystem) : filesystem :=
  match fs !! src with
  | Some data => <[dst := data]> (delete src fs)
  | None => fs
  end.

(** ** Configuration *)

Definition OUTPUT_DIR : pystr := py "Fetched_Images".
Definition MAX_BYTES : Z := 10 * 1024 * 1024.
Definition CHUNK_SIZE : Z := 8192.

Definition ALLOWED_IMAGE_TYPES : gset pystr :=
  {[ py "image/jpeg"; py "image/png"; py "image/gif"; py "image/webp";
     py "image/svg+xml"; py "image/bmp"; py "image/tiff" ]}.

(** ** Helpers *)

(** What [load_index] finds at the index path. *)
Inductive index_file :=
| Missing
| Unreadable
| Parsed (v : pyval).

Definition load_index (f : index_file) : pyval :=
  match f with
  | Parsed v => v
  | Unreadable => VDict ∅
  | Missing => VDict ∅
  end.

(** [f"{i}"] for a non-negative integer. *)
Definition str_of_nat (i : nat) : pystr :=
  py (NilEmpty.string_of_uint (Nat.to_uint i)).

(** The [while] loop of [make_unique_path]; [None] when the fuel runs out
    before a free name is met. *)
Fixpoint unique_loop (fuel : nat) (fs : filesystem) (directory base ext : pystr)
    (candidate : pystr) (i : nat) : option pystr :=
  match fuel with
  | O => None
  | S fuel' =>
      if path_exists fs candidate
      then unique_loop fuel' fs directory base ext
             (path_join directory (base ++ py "_" ++ str_of_nat i ++ ext)) (S i)
      else Some candidate
  end.

Definition make_unique_path (fs : filesystem) (directory filename : pystr)
    : option pystr :=
  let '(base, ext) := splitext filename in
  unique_loop (2 + size fs) fs directory base ext
    (path_join directory filename) 1.

Definition mapping : gmap pystr pystr :=
  list_to_map
    [ (py "image/jpeg", py ".jpg"); (py "image/png", py ".png");
      (py "image/gif", py ".gif"); (py "image/webp", py ".webp");
      (py "image/svg+xml", py ".svg"); (py "image/bmp", py ".bmp");
      (py "image/tiff", py ".tiff") ].

(** [value.split(";")[0].strip().lower()]. *)
Definition media_type (value : pystr) : pystr :=
  lower (strip (hd [] (split_on (ch ";") value))).

Definition ext_from_content_type (content_type : pystr) : pystr :=
  if str_empty content_type then []
  else default [] (mapping !! media_type content_type).

(** ** [int(s)] on a header value

    Surrounding whitespace is dropped, a sign may follow, then decimal
    digits, where single underscores may stand between digits.  Header
    values are ISO-8859-1 text, in which the decimal digits are 0-9 only.
    The interpreter refuses more than 4300 digits by default.  [None]
    stands for [ValueError]. *)

Definition int_space (c : N) : bool :=
  ((9 <=? c) && (c <=? 13)) || (c =? 32) || ((128 <=? c) && isspace c).

Fixpoint int_lstrip (s : pystr) : pystr :=
  match s with
  | c :: s' => if int_space c then int_lstrip s' else s
  | [] => []
  end.

Definition is_digit (c : N) : bool := (0x30 <=? c) && (c <=? 0x39).

Fixpoint parse_digits (s : pystr) (acc : Z) (after_digit : bool) : option Z :=
  match s with
  | [] => if after_digit then Some acc else None
  | c :: s' =>
      if is_digit c then parse_digits s' (10 * acc + Z.of_N (c - 0x30)) true
      else if (c =? ch "_") && after_digit then parse_digits s' acc false
      else None
  end.

Definition int_max_str_digits : nat := 4300.

Definition py_int (s : pystr) : option Z :=
  let body := rev (int_lstrip (rev (int_lstrip s))) in
  let '(negative, digits) :=
    match body with
    | c :: rest =>
        if c =? ch "-" then (true, rest)
        else if c =? ch "+" then (false, rest)
        else (false, body)
    | [] => (false, body)
    end in
  if (int_max_str_digits <? length (filter (fun c => is_digit c = true) digits))%nat
  then None
  else match parse_digits digits 0 false with
       | Some n => Some (if negative then - n else n)%Z
       | None => None
       end.

(** ** The [Content-Disposition] pattern

    The script searches the header for [filename], an optional star, [=],
    an optional [UTF-8''], an optional double quote, and then one or more
    characters other than the double quote and the semicolon (group 1),
    followed by an optional double quote.  [search_filename] is group 1 at
    the leftmost position where that pattern matches.  The double quote is
    code point 0x22. *)

Definition strip_prefix (p s : pystr) : option pystr :=
  if startswith p s then Some (drop (length p) s) else None.

Definition name_char (c : N) : bool :=
  negb ((c =? 0x22) || (c =? ch ";")).

Fixpoint take_while (f : N → bool) (s : pystr) : pystr :=
  match s with
  | c :: s' => if f c then c :: take_while f s' else []
  | [] => []
  end.

(** The optional quote and group 1 at the head of [s]. *)
Definition match_name (s : pystr) : option pystr :=
  let s := match s with c :: s' => if c =? 0x22 then s' else s | [] => s end in
  match take_while name_char s with
  | [] => None
  | g => Some g
  end.

(** The whole pattern at the head of [s], alternatives in the order the
    matcher tries them. *)
Definition match_filename_at (s : pystr) : option pystr :=
  match strip_prefix (py "filename") s with
  | None => None
  | Some r1 =>
      let r1 := match strip_prefix (py "*=") r1 with
                | Some r => Some r
                | None => strip_prefix (py "=") r1
                end in
      match r1 with
      | None => None
      | Some r2 =>
          match strip_prefix (py "UTF-8''") r2 with
          | Some r3 =>
              match match_name r3 with
              | Some g => Some g
              | None => match_name r2
              end
          | None => match_name r2
          end
      end
  end.

Fixpoint search_filename (cd : pystr) : option pystr :=
  match match_filename_at cd with
  | Some g => Some g
  | None =>
      match cd with
      | [] => None
      | _ :: cd' => search_filename cd'
      end
  end.

(** ** One call of [download_image]: inputs and results *)

(** A URL together with the path component [urlparse] reports for it. *)
Record url := {
  url_text : pystr;
  url_path : pystr
}.

(** The response as the routine observes it: status, the three headers it
    reads, the chunks [iter_content(chunk_size=CHUNK_SIZE)] yields, and
    whether the transfer (or a write of it) raises once those chunks are
    through. *)
Record response := {
  status_code : Z;
  content_type_header : option pystr;
  content_length_header : option pystr;
  content_disposition_header : option pystr;
  body : list bytes;
  body_raises : bool
}.

(** [session.get(...)]: a [RequestException] or a response.  An exception
    of another class is not caught by the routine; it is not an outcome
    here. *)
Inductive get_result :=
| RequestException
| Response (resp : response).

(** What else the environment decides during the call. *)
Record env := {
  open_raises : bool;
  replace_raises : bool;
  clock : Z
}.

(** The [(False, message)] results, by message. *)
Inductive failure :=
| RequestError
| HTTPError (status : Z)
| RejectedContentType (content_type : pystr)
| RejectedContentLength (content_length : pystr) (max_bytes : Z)
| AbortedSizeExceeded (max_bytes : Z)
| WriteError
| Duplicate (filename url : pyval)
| FinalizeFailed.

(** Exceptions the operations on the index can raise. *)
Inductive exn := KeyError | TypeError | AttributeError.

(** How a call ends: [(True, final_path)], [(False, message)], an exception
    that leaves the routine, or no return at all when the loop of
    [make_unique_path] never meets a free name. *)
Inductive result :=
| Saved (final_path : pystr)
| Failed (why : failure)
| Raised (e : exn)
| NoReturn.

(** [resp.raise_for_status()] raises for 4xx and 5xx. *)
Definition raise_for_status (resp : response) : bool :=
  ((400 <=? status_code resp) && (status_code resp <? 600))%Z.

(** ** Operations on the index value *)

(** [key in v]. *)
Definition py_contains (key : pystr) (v : pyval) : exn + bool :=
  match v with
  | VDict d => inr (match d !! key with Some _ => true | None => false end)
  | VList l =>
      inr (existsb (fun x => match x with
                             | VStr s => str_eqb s key
                             | _ => false
                             end) l)
  | VStr s => inr (contains_str key s)
  | _ => inl TypeError
  end.

(** [v[key]] for a string key. *)
Definition py_getitem (v : pyval) (key : pystr) : exn + pyval :=
  match v with
  | VDict d =>
      match d !! key with
      | Some x => inr x
      | None => inl KeyError
      end
  | _ => inl TypeError
  end.

(** [v.get(key)]. *)
Definition py_get (v : pyval) (key : pystr) : exn + pyval :=
  match v with
  | VDict d => inr (default VNone (d !! key))
  | _ => inl AttributeError
  end.

(** [v[key] = x]. *)
Definition py_setitem (v : pyval) (key : pystr) (x : pyval) : exn + pyval :=
  match v with
  | VDict d => inr (VDict (<[key := x]> d))
  | _ => inl TypeError
  end.

Definition index_fields (final_path url content_type : pystr) (total now : Z)
    : gmap pystr pyval :=
  list_to_map
    [ (py "filename", VStr (basename final_path));
      (py "url", VStr url);
      (py "content_type", VStr content_type);
      (py "size", VInt total);
      (py "timestamp", VInt now) ].

Definition index_record (final_path url content_type : pystr) (total now : Z)
    : pyval :=
  VDict (index_fields final_path url content_type total now).

(** ** The streaming loop

    The hash object is the sequence of bytes it has been fed. *)

Definition sha_update (sha chunk : bytes) : bytes := sha ++ chunk.
Definition sha_hexdigest (sha : bytes) : pystr := SHA256.hexdigest sha.

(** [fh.write(chunk)] on the open temporary file. *)
Definition fh_write (tmp_path : pystr) (chunk : bytes) (fs : filesystem)
    : filesystem :=
  alter (fun data => data ++ chunk) tmp_path fs.

Record stream := {
  st_fs : filesystem;
  st_sha : bytes;
  st_total : Z
}.

Inductive loop_exit :=
| Exhausted (st : stream)
| Overflow (st : stream)
| Interrupted (st : stream).

Fixpoint stream_body (max_bytes : Z) (tmp_path : pystr) (chunks : list bytes)
    (raises : bool) (st : stream) : loop_exit :=
  match chunks with
  | [] => if raises then Interrupted st else Exhausted st
  | chunk :: rest =>
      match chunk with
      | [] => stream_body max_bytes tmp_path rest raises st
      | _ =>
          let st' := {| st_fs := fh_write tmp_path chunk (st_fs st);
                        st_sha := sha_update (st_sha st) chunk;
                        st_total := st_total st + Z.of_nat (length chunk) |} in
          if (max_bytes <? st_total st')%Z then Overflow st'
          else stream_body max_bytes tmp_path rest raises st'
      end
  end.

(** ** The routine, step by step *)

(** Step 1: the validated content type. *)
Definition response_content_type (resp : response) : pystr :=
  media_type (default [] (content_type_header resp)).

Definition allowed_type (content_type : pystr) : bool :=
  startswith (py "image/") content_type
  && bool_decide (content_type ∈ ALLOWED_IMAGE_TYPES).

(** Step 2: does the declared length exceed the limit?  A header that is
    absent, empty or not an integer never does. *)
Definition declared_too_long (resp : response) (max_bytes : Z) : bool :=
  match content_length_header resp with
  | Some content_length =>
      if str_empty content_length then false
      else match py_int content_length with
           | Some n => (max_bytes <? n)%Z
           | None => false
           end
  | None => false
  end.

(** Step 3: the filename, from [Content-Disposition], else from the URL
    path, with an extension put on when it has none. *)
Definition header_filename (resp : response) : option pystr :=
  match content_disposition_header resp with
  | Some cd =>
      if str_empty cd then None
      else match search_filename cd with
           | Some g => Some (sanitize_filename g)
           | None => None
           end
  | None => None
  end.

Definition with_extension (filename content_type : pystr) : pystr :=
  if str_empty (splitext filename).2 then
    let ext := ext_from_content_type content_type in
    if str_empty ext then filename ++ py ".img" else filename ++ ext
  else filename.

Definition target_filename (u : url) (resp : response) (content_type : pystr)
    : pystr :=
  let filename :=
    match header_filename resp with
    | Some f =>
        if str_empty f then sanitize_filename (basename (url_path u)) else f
    | None => sanitize_filename (basename (url_path u))
    end in
  with_extension filename content_type.

(** Steps 4 to 6, once the stream is through: duplicate check, move to the
    final path, index update. *)
Definition finalize (u : url) (out_dir filename tmp_path content_type : pystr)
    (index : pyval) (e : env) (st : stream) : result * filesystem * pyval :=
  let digest := sha_hexdigest (st_sha st) in
  let fs := st_fs st in
  match py_contains digest index with
  | inl err => (Raised err, fs, index)
  | inr true =>
      let fs := remove_if_exists tmp_path fs in
      match py_getitem index digest with
      | inl err => (Raised err, fs, index)
      | inr existing =>
          match py_getitem existing (py "filename") with
          | inl err => (Raised err, fs, index)
          | inr name =>
              match py_get existing (py "url") with
              | inl err => (Raised err, fs, index)
              | inr from => (Failed (Duplicate name from), fs, index)
              end
          end
      end
  | inr false =>
      match make_unique_path fs out_dir filename with
      | None => (NoReturn, fs, index)
      | Some final_path =>
          if replace_raises e
          then (Failed FinalizeFailed, remove_if_exists tmp_path fs, index)
          else
            let fs := os_replace tmp_path final_path fs in
            let record := index_record final_path (url_text u) content_type
                            (st_total st) (clock e) in
            match py_setitem index digest record with
            | inl err => (Raised err, fs, index)
            | inr index' => (Saved final_path, fs, index')
            end
      end
  end.

Definition download_image (u : url) (out_dir : pystr) (session : get_result)
    (index : pyval) (max_bytes : Z) (e : env) (fs : filesystem)
    : result * filesystem * pyval :=
  match session with
  | RequestException => (Failed RequestError, fs, index)
  | Response resp =>
      if raise_for_status resp
      then (Failed (HTTPError (status_code resp)), fs, index)
      else
        let content_type := response_content_type resp in
        if negb (allowed_type content_type)
        then (Failed (RejectedContentType content_type), fs, index)
        else if declared_too_long resp max_bytes
        then (Failed (RejectedContentLength
                        (default [] (content_length_header resp)) max_bytes),
              fs, index)
        else
          let filename := target_filename u resp content_type in
          let tmp_path := path_join out_dir (filename ++ py ".tmp") in
          if open_raises e
          then (Failed WriteError, remove_if_exists tmp_path fs, index)
          else
            let st0 := {| st_fs := <[tmp_path := []]> fs;
                          st_sha := [];
                          st_total := 0 |} in
            match stream_body max_bytes tmp_path (body resp) (body_raises resp)
                    st0 with
            | Overflow st =>
                (Failed (AbortedSizeExceeded max_bytes),
                 delete tmp_path (st_fs st), index)
            | Interrupted st =>
                (Failed WriteError, remove_if_exists tmp_path (st_fs st), index)
            | Exhausted st =>
                finalize u out_dir filename tmp_path content_type index e st
            end
  end.

(** * The command-line flow *)

Definition INDEX_FILENAME : pystr := py "index.json".

(** [os.makedirs(path, exist_ok=True); return path].  Directories are not
    entries of the file map, so only the returned path shows. *)
Definition ensure_output_dir (path : pystr) : pystr := path.

(** The namespace [parse_args] returns.  [delay] only feeds [time.sleep]
    and is left out; the time that passes shows in the clock of each call. *)
Record args := {
  arg_urls : option (list pystr);
  arg_file : option pystr;
  arg_out : pystr;
  arg_max : Z;
  arg_no_index : bool
}.

(** What the flow reads from outside the output directory: the lines of a
    text file by path ([None] when the path does not exist), the line typed
    at the prompt, what the web answers for a URL (with the path [urlparse]
    reports for that URL and the conditions of the call), and the JSON codec
    ([json_load] is [None] when [json.load] raises). *)
Record web_answer := {
  answer_path : pystr;
  answer_session : get_result;
  answer_env : env
}.

Record world := {
  read_lines : pystr → option (list pystr);
  typed : pystr;
  web : pystr → web_answer;
  json_load : bytes → option pyval;
  json_dump : pyval → bytes
}.

(** [re.split] on a pattern that matches one run of separator characters:
    the pieces between the runs, empty ones at the ends included. *)
Fixpoint split_runs (is_sep : N → bool) (after_sep : bool) (s : pystr)
    : list pystr :=
  match s with
  | [] => [[]]
  | c :: s' =>
      if is_sep c then
        if after_sep then split_runs is_sep true s'
        else [] :: split_runs is_sep true s'
      else
        match split_runs is_sep false s' with
        | piece :: pieces => (c :: piece) :: pieces
        | [] => [[c]]
        end
  end.

(** The class [[,\s]]. *)
Definition comma_or_space (c : N) : bool := (c =? ch ",") || isspace c.

Definition re_split_comma_space (raw : pystr) : list pystr :=
  split_runs comma_or_space false raw.

(** The lines of the URL file that count: stripped, not empty, not
    starting with [#]. *)
Fixpoint urls_of_lines (lines : list pystr) : list pystr :=
  match lines with
  | [] => []
  | ln :: rest =>
      let ln := strip ln in
      if negb (str_empty ln) && negb (startswith (py "#") ln)
      then ln :: urls_of_lines rest
      else urls_of_lines rest
  end.

(** The closing loop of [gather_urls]: keep the first occurrence of each
    URL, in order. *)
Fixpoint dedup_from (seen : gset pystr) (urls : list pystr) : list pystr :=
  match urls with
  | [] => []
  | u :: rest =>
      if bool_decide (u ∈ seen) then dedup_from seen rest
      else u :: dedup_from ({[ u ]} ∪ seen) rest
  end.

(** The URLs given on the command line followed by those of the file. *)
Definition given_urls (a : args) (w : world) : list pystr :=
  default [] (arg_urls a)
  ++ match arg_file a with
     | Some file =>
         if str_empty file then []
         else match read_lines w file with
              | Some lines => urls_of_lines lines
              | None => []
              end
     | None => []
     end.

Definition gather_urls (a : args) (w : world) : list pystr :=
  let urls := given_urls a w in
  match urls with
  | [] =>
      let raw := strip (typed w) in
      if str_empty raw then []
      else dedup_from ∅
             (List.filter (fun p => negb (str_empty p))
                          (re_split_comma_space raw))
  | _ => dedup_from ∅ urls
  end.

(** [save_index(index, index_path)]: the file is rewritten with the dump. *)
Definition save_index (w : world) (index : pyval) (index_path : pystr)
    (fs : filesystem) : filesystem :=
  <[index_path := json_dump w index]> fs.

(** What [load_index] finds at a path of the output directory. *)
Definition index_file_at (w : world) (fs : filesystem) (index_path : pystr)
    : index_file :=
  match fs !! index_path with
  | None => Missing
  | Some data =>
      match json_load w data with
      | Some v => Parsed v
      | None => Unreadable
      end
  end.

(** The state the loop of [main] carries: the directory, the index and the
    two counters. *)
Record tally := {
  t_fs : filesystem;
  t_index : pyval;
  success_count : nat;
  skip_count : nat
}.

(** How a run ends: it returns, an exception of a call goes up through
    [main], or a call never returns.  Exceptions of [main]'s own calls
    ([input], [time.sleep], the write of the index file) are not among
    them. *)
Inductive run_end :=
| Returned (t : tally)
| Crashed (e : exn) (t : tally)
| Hung.

(** The [for] loop of [main]. *)
Fixpoint fetch_loop (w : world) (out_dir : pystr) (max_bytes : Z)
    (urls : list pystr) (t : tally) : run_end :=
  match urls with
  | [] => Returned t
  | url :: rest =>
      let u := {| url_text := url; url_path := answer_path (web w url) |} in
      match download_image u out_dir (answer_session (web w url)) (t_index t)
              max_bytes (answer_env (web w url)) (t_fs t) with
      | (Saved _, fs, index) =>
          fetch_loop w out_dir max_bytes rest
            {| t_fs := fs; t_index := index;
               success_count := S (success_count t);
               skip_count := skip_count t |}
      | (Failed _, fs, index) =>
          fetch_loop w out_dir max_bytes rest
            {| t_fs := fs; t_index := index;
               success_count := success_count t;
               skip_count := S (skip_count t) |}
      | (Raised err, fs, index) =>
          Crashed err {| t_fs := fs; t_index := index;
                         success_count := success_count t;
                         skip_count := skip_count t |}
      | (NoReturn, _, _) => Hung
      end
  end.

Definition main (a : args) (w : world) (fs : filesystem) : run_end :=
  let out_dir := ensure_output_dir (arg_out a) in
  let index_path := path_join out_dir INDEX_FILENAME in
  let index := if arg_no_index a then VDict ∅
               else load_index (index_file_at w fs index_path) in
  let urls := gather_urls a w in
  match urls with
  | [] => Returned {| t_fs := fs; t_index := index;
                      success_count := 0; skip_count := 0 |}
  | _ =>
      match fetch_loop w out_dir (arg_max a) urls
              {| t_fs := fs; t_index := index;
                 success_count := 0; skip_count := 0 |} with
      | Returned t =>
          if arg_no_index a then Returned t
          else Returned {| t_fs := save_index w (t_index t) index_path (t_fs t);
                           t_index := t_index t;
                           success_count := success_count t;
                           skip_count := skip_count t |}
      | other => other
      end
  end.

(** * Vocabulary of the statements *)

(** The directory part [os.path.join] puts in front of a relative name. *)
Definition join_prefix (a : pystr) : pystr :=
  if str_empty a || endswith [sep] a then a else a ++ [sep].

(** Only characters of the class [[A-Za-z0-9._-]]. *)
Definition safe (s : pystr) : Prop := Forall (fun c => safe_char c = true) s.

(** The name tried at round [i] of the loop. *)
Definition candidate (directory base ext : pystr) (i : nat) : pystr :=
  path_join directory (base ++ py "_" ++ str_of_nat i ++ ext).

(** Bytes a list of chunks carries. *)
Definition body_length (chunks : list bytes) : Z :=
  Z.of_nat (length (concat chunks)).

(** The loop state once [written] has gone to the temporary file of an
    output directory that was [fs] before the file was opened. *)
Definition streamed (tmp_path : pystr) (fs : filesystem) (written : bytes)
    : stream :=
  {| st_fs := <[tmp_path := written]> fs;
     st_sha := written;
     st_total := Z.of_nat (length written) |}.

(** The response gets past the status, content-type and declared-length
    checks. *)
Definition passes_headers (resp : response) (max_bytes : Z) : Prop :=
  raise_for_status resp = false
  ∧ allowed_type (response_content_type resp) = true
  ∧ declared_too_long resp max_bytes = false.

(** The target filename and the temporary path of a call. *)
Definition filename_of (u : url) (resp : response) : pystr :=
  target_filename u resp (response_content_type resp).

Definition tmp_path_of (u : url) (out_dir : pystr) (resp : response) : pystr :=
  path_join out_dir (filename_of u resp ++ py ".tmp").

(** The bytes of the body, chunk after chunk. *)
Definition content (resp : response) : bytes := concat (body resp).

(** The body never takes the counter over the limit. *)
Definition fits (max_bytes : Z) (resp : response) : Prop :=
  content resp = [] ∨ (body_length (body resp) ≤ max_bytes)%Z.

(** The call meets no rejection and no I/O error. *)
Definition goes_through (resp : response) (max_bytes : Z) (e : env) : Prop :=
  passes_headers resp max_bytes
  ∧ open_raises e = false
  ∧ body_raises resp = false
  ∧ fits max_bytes resp
  ∧ replace_raises e = false.

(** The record a successful call files under the digest. *)
Definition saved_record (u : url) (resp : response) (e : env)
    (final_path : pystr) : pyval :=
  index_record final_path (url_text u) (response_content_type resp)
    (Z.of_nat (length (content resp))) (clock e).

(** The response with its [Content-Length] header taken away. *)
Definition without_content_length (resp : response) : response :=
  {| status_code := status_code resp;
     content_type_header := content_type_header resp;
     content_length_header := None;
     content_disposition_header := content_disposition_header resp;
     body := body resp;
     body_raises := body_raises resp |}.

(** An index in the shape the routine itself writes: a dict of records
    that have a [filename]. *)
Definition well_formed_index (index : pyval) : Prop :=
  ∃ d : gmap pystr pyval,
    index = VDict d
    ∧ ∀ digest record, d !! digest = Some record →
        ∃ fields : gmap pystr pyval,
          record = VDict fields ∧ is_Some (fields !! py "filename").

(** ** Concrete calls, for the examples *)

Definition healthy : env :=
  {| open_raises := false; replace_raises := false; clock := 1700000000 |}.

Definition a_jpg : url :=
  {| url_text := py "https://x.test/a.jpg"; url_path := py "/a.jpg" |}.

Definition jpeg_response (declared : option pystr) (chunks : list bytes)
    : response :=
  {| status_code := 200;
     content_type_header := Some (py "image/jpeg");
     content_length_header := declared;
     content_disposition_header := None;
     body := chunks;
     body_raises := false |}.

Definition html_response : response :=
  {| status_code := 200;
     content_type_header := Some (py "text/html; charset=utf-8");
     content_length_header := None;
     content_disposition_header := None;
     body := [bytes_of "<html>"];
     body_raises := false |}.

(** JSON index files of the wrong shape, as [load_index] hands them over. *)
Definition index_that_is_a_list : index_file := Parsed (VList []).

Definition index_of_records_without_filename : index_file :=
  Parsed (VDict {[ SHA256.hexdigest (bytes_of "abc") := VDict ∅ ]}).

(** Closes [l = r] by evaluating both sides. *)
Ltac by_evaluation :=
  lazymatch goal with
  | |- ?l = ?r => vm_cast_no_check (@eq_refl _ r)
  end.

(** ** Vocabulary of the further properties *)

(** Two underscores side by side somewhere in the string. *)
Definition has_underscore_run (s : pystr) : Prop :=
  ∃ front back, s = front ++ ch "_" :: ch "_" :: back.

Fixpoint no_runb (s : pystr) : bool :=
  match s with
  | a :: rest =>
      match rest with
      | b :: _ => negb ((a =? ch "_") && (b =? ch "_")) && no_runb rest
      | [] => true
      end
  | [] => true
  end.

(** A name the sanitizer has nothing to do on. *)
Definition clean_name (s : pystr) : Prop :=
  s ≠ [] ∧ safe s ∧ ¬ has_underscore_run s ∧ (length s ≤ 200)%nat.

(** Results after which the temporary file has been removed and nothing
    else has changed. *)
Definition is_cleanup_result (r : result) : Prop :=
  match r with
  | Raised _ | Failed (Duplicate _ _) | Failed FinalizeFailed => True
  | _ => False
  end.

(** The call ended in a failure or an exception. *)
Definition not_saved (r : result) : Prop :=
  match r with
  | Failed _ | Raised _ => True
  | _ => False
  end.

(** The response with another cut of its body into chunks. *)
Definition with_body (resp : response) (chunks : list bytes) : response :=
  {| status_code := status_code resp;
     content_type_header := content_type_header resp;
     content_length_header := content_length_header resp;
     content_disposition_header := content_disposition_header resp;
     body := chunks;
     body_raises := body_raises resp |}.

(** Every record of the index names a file of the output directory whose
    bytes hash to the key of the record. *)
Definition index_describes (out_dir : pystr) (fs : filesystem) (index : pyval)
    : Prop :=
  ∃ d : gmap pystr pyval,
    index = VDict d
    ∧ ∀ digest record, d !! digest = Some record →
        ∃ (fields : gmap pystr pyval) (name : pystr) (data : bytes),
          record = VDict fields
          ∧ fields !! py "filename" = Some (VStr name)
          ∧ fs !! path_join out_dir name = Some data
          ∧ SHA256.hexdigest data = digest.

(** The index a run of [main] starts from. *)
Definition initial_index (a : args) (w : world) (fs : filesystem) : pyval :=
  if arg_no_index a then VDict ∅
  else load_index (index_file_at w fs
                     (path_join (ensure_output_dir (arg_out a)) INDEX_FILENAME)).

(** The call [main] makes for a URL. *)
Definition url_of (w : world) (text : pystr) : url :=
  {| url_text := text; url_path := answer_path (web w text) |}.

(** ** A concrete run, for the examples *)

Definition b_png : url :=
  {| url_text := py "https://x.test/b.png"; url_path := py "/b.png" |}.

Definition png_response (chunks : list bytes) : response :=
  {| status_code := 200;
     content_type_header := Some (py "image/png");
     content_length_header := None;
     content_disposition_header := None;
     body := chunks;
     body_raises := false |}.

(** A web that serves one JPEG, one PNG, and 404 for the rest. *)
Definition small_web (text : pystr) : web_answer :=
  if str_eqb text (py "https://x.test/a.jpg") then
    {| answer_path := py "/a.jpg";
       answer_session := Response (jpeg_response None [bytes_of "abc"]);
       answer_env := healthy |}
  else if str_eqb text (py "https://x.test/b.png") then
    {| answer_path := py "/b.png";
       answer_session := Response (png_response [bytes_of "ab"; bytes_of "d"]);
       answer_env := healthy |}
  else
    {| answer_path := py "/";
       answer_session :=
         Response {| status_code := 404;
                     content_type_header := Some (py "text/html");
                     content_length_header := None;
                     content_disposition_header := None;
                     body := [];
                     body_raises := false |};
       answer_env := healthy |}.

(** A world whose URL file holds a comment, a blank line and two URLs, one
    of them twice; the codec is left trivial. *)
Definition small_world : world :=
  {| read_lines := fun path =>
       if str_eqb path (py "urls.txt")
       then Some [ py "# images"; py ""; py " https://x.test/a.jpg ";
                   py "https://x.test/b.png"; py "https://x.test/a.jpg" ]
       else None;
     typed := py "https://x.test/c.gif, https://x.test/a.jpg";
     web := small_web;
     json_load := fun _ => None;
     json_dump := fun _ => [] |}.

Definition small_args : args :=
  {| arg_urls := None;
     arg_file := Some (py "urls.txt");
     arg_out := OUTPUT_DIR;
     arg_max := MAX_BYTES;
     arg_no_index := false |}.

(** The tally a run ended with (the empty one for a run that hung). *)
Definition end_tally (r : run_end) : tally :=
  match r with
  | Returned t | Crashed _ t => t
  | Hung => {| t_fs := ∅; t_index := VNone; success_count := 0; skip_count := 0 |}
  end.

(** * Properties *)

(** ** Strings and paths *)

(** What [rfind_from] returns: the running default when the character is
    absent, the position of its last occurrence otherwise. *)
Lemma rfind_from_spec (c : N) (s : pystr) (i last : Z) :
  ((c ∉ s) ∧ rfind_from c s i last = last)
  ∨ (∃ k : nat, rfind_from c s i last = (i + Z.of_nat k)%Z
                ∧ s !! k = Some c ∧ (c ∉ drop (S k) s)).
Proof.
  revert i last. induction s as [|x s IH]; intros i last; simpl.
  - left. split; [apply not_elem_of_nil | done].
  - destruct (IH (i + 1)%Z (if x =? c then i else last)) as [[Hn Hr]|(k & Hr & Hk & Hd)].
    + destruct (N.eqb_spec x c) as [->|Hne].
      * right. exists 0%nat. rewrite Hr. simpl. split; [lia|]. by rewrite drop_0.
      * left. rewrite Hr. split; [|done].
        rewrite not_elem_of_cons. split; [congruence | done].
    + right. exists (S k). rewrite Hr. split; [lia | done].
Qed.

Lemma rfind_spec (c : N) (s : pystr) :
  ((c ∉ s) ∧ rfind c s = (-1)%Z)
  ∨ (∃ k : nat, rfind c s = Z.of_nat k ∧ s !! k = Some c ∧ (c ∉ drop (S k) s)).
Proof.
  unfold rfind.
  destruct (rfind_from_spec c s 0 (-1)) as [?|(k & Hr & ?)]; [by left|].
  right. exists k. by rewrite Hr.
Qed.

Lemma basename_no_sep (p : pystr) : sep ∉ basename p.
Proof.
  unfold basename, slice_from.
  destruct (rfind_spec sep p) as [[Hn ->]|(k & -> & _ & Hd)]; simpl.
  - by rewrite drop_0.
  - replace (Z.to_nat (Z.of_nat k + 1)) with (S k) by lia. done.
Qed.

(** [splitext] cuts the name in two, and an extension that is not empty
    opens with a dot. *)
Lemma splitext_spec (p : pystr) :
  (splitext p).1 ++ (splitext p).2 = p
  ∧ ((splitext p).2 = [] ∨ ∃ e, (splitext p).2 = ch "." :: e).
Proof.
  unfold splitext.
  destruct ((rfind sep p <? rfind (ch ".") p)%Z
            && has_non_dot p (rfind sep p + 1) (rfind (ch ".") p)) eqn:E;
    cbn [fst snd].
  - apply andb_true_iff in E as [Hlt _]. apply Z.ltb_lt in Hlt.
    unfold slice_to, slice_from.
    split; [apply take_drop|]. right.
    destruct (rfind_spec (ch ".") p) as [[_ Hr]|(k & Hr & Hk & _)].
    + destruct (rfind_spec sep p) as [[_ Hs]|(j & Hs & _)]; lia.
    + rewrite Hr, Nat2Z.id. exists (drop (S k) p).
      by rewrite <- (drop_S _ _ _ Hk).
  - split; [apply app_nil_r | by left].
Qed.

Lemma path_join_relative (a b : pystr) :
  startswith [sep] b = false → path_join a b = join_prefix a ++ b.
Proof.
  intros H. unfold path_join, join_prefix. rewrite H.
  destruct (str_empty a || endswith [sep] a); [done|].
  by rewrite <- app_assoc.
Qed.

Lemma startswith_sep_safe (s : pystr) :
  Forall (fun c => safe_char c = true) s → startswith [sep] s = false.
Proof.
  intros H. destruct s as [|c s]; [done|].
  apply Forall_cons in H as [Hc _]. cbn [startswith].
  destruct (N.eqb_spec sep c) as [<-|]; [by vm_compute in Hc | done].
Qed.

(** Decimal rendering of the counter never repeats. *)
Lemma py_inj (a b : string) : py a = py b → a = b.
Proof.
  unfold py. intros H.
  rewrite <- (string_of_list_ascii_of_string a), <- (string_of_list_ascii_of_string b).
  f_equal. revert H. generalize (list_ascii_of_string a) (list_ascii_of_string b).
  intros l. induction l as [|x l IH]; intros [|y m] H; simpl in *; try done.
  injection H as Hxy Hlm. f_equal; [|by apply IH].
  rewrite <- (ascii_N_embedding x), <- (ascii_N_embedding y). by f_equal.
Qed.

Lemma str_of_nat_inj (i j : nat) : str_of_nat i = str_of_nat j → i = j.
Proof.
  unfold str_of_nat. intros H%py_inj.
  assert (Nat.to_uint i = Nat.to_uint j) as E.
  { apply (f_equal NilEmpty.uint_of_string) in H.
    rewrite !NilEmpty.usu in H. congruence. }
  rewrite <- (DecimalNat.Unsigned.of_to i), <- (DecimalNat.Unsigned.of_to j).
  by f_equal.
Qed.

(** ** The sanitizer *)

Lemma replace_unsafe_safe (s : pystr) : safe (replace_unsafe s).
Proof.
  unfold safe, replace_unsafe. apply Forall_map, Forall_forall. intros c _. simpl.
  by destruct (safe_char c) eqn:E.
Qed.

Lemma collapse_from_safe (b : bool) (s : pystr) :
  safe s → safe (collapse_from b s).
Proof.
  unfold safe. revert b. induction s as [|c s IH]; intros b H; [done|].
  apply Forall_cons in H as [Hc Hs]. cbn [collapse_from].
  destruct (c =? ch "_"); [destruct b|]; try constructor; auto.
Qed.

(** The sanitizer only lets characters of the class through and never
    returns more than 200 of them. *)
Lemma sanitize_filename_safe (raw : pystr) :
  safe (sanitize_filename raw) ∧ (length (sanitize_filename raw) ≤ 200)%nat.
Proof.
  unfold sanitize_filename. split.
  - apply Forall_take, collapse_from_safe, replace_unsafe_safe.
  - rewrite length_take. lia.
Qed.

Lemma safe_no_sep (s : pystr) : safe s → sep ∉ s.
Proof.
  intros H Hin. unfold safe in H. rewrite Forall_forall in H.
  specialize (H _ Hin). by vm_compute in H.
Qed.

Lemma mapping_safe (content_type ext : pystr) :
  mapping !! content_type = Some ext → safe ext.
Proof.
  unfold mapping. intros H%elem_of_list_to_map_2.
  repeat (apply elem_of_cons in H as [[= _ ->]|H];
          [vm_compute; by repeat constructor|]).
  by apply elem_of_nil in H.
Qed.

(** The target filename of a call is a bare name: whatever the URL and the
    headers say, no path separator gets into it. *)
Lemma target_filename_safe (u : url) (resp : response) (content_type : pystr) :
  safe (target_filename u resp content_type).
Proof.
  unfold target_filename, with_extension.
  set (name := match header_filename resp with
               | Some f => if str_empty f
                           then sanitize_filename (basename (url_path u)) else f
               | None => sanitize_filename (basename (url_path u))
               end).
  assert (safe name) as Hname.
  { unfold name, header_filename.
    destruct (content_disposition_header resp) as [cd|];
      [|apply sanitize_filename_safe].
    destruct (str_empty cd); [apply sanitize_filename_safe|].
    destruct (search_filename cd) as [g|]; [|apply sanitize_filename_safe].
    destruct (str_empty (sanitize_filename g)); apply sanitize_filename_safe. }
  destruct (str_empty (splitext name).2); [|done].
  unfold ext_from_content_type.
  destruct (str_empty content_type); cbn [str_empty].
  - apply Forall_app. split; [done | vm_compute; by repeat constructor].
  - destruct (mapping !! media_type content_type) as [ext|] eqn:E;
      cbn [default]; unfold id.
    + destruct (str_empty ext); apply Forall_app; split; try done.
      * vm_compute; by repeat constructor.
      * by eapply mapping_safe.
    + apply Forall_app. split; [done | vm_compute; by repeat constructor].
Qed.

(** ** [make_unique_path] *)

Lemma path_exists_true (fs : filesystem) (p : pystr) :
  path_exists fs p = true ↔ is_Some (fs !! p).
Proof.
  unfold path_exists. destruct (fs !! p); split; done.
Qed.

Lemma path_exists_false (fs : filesystem) (p : pystr) :
  path_exists fs p = false ↔ fs !! p = None.
Proof. unfold path_exists. destruct (fs !! p); split; done. Qed.

(** Joining puts the same text in front of every numbered name. *)
Lemma path_join_numbered (directory base : pystr) :
  ∃ front, ∀ rest,
    path_join directory (base ++ ch "_" :: rest) = front ++ ch "_" :: rest.
Proof.
  destruct base as [|c base].
  - exists (join_prefix directory). intros rest.
    by apply path_join_relative.
  - destruct (sep =? c) eqn:E.
    + exists (c :: base). intros rest.
      unfold path_join. cbn [app startswith]. by rewrite E.
    + exists (join_prefix directory ++ c :: base). intros rest.
      rewrite path_join_relative; [by rewrite <- app_assoc|].
      cbn [app startswith]. by rewrite E.
Qed.

Lemma candidate_inj (directory base ext : pystr) (i j : nat) :
  candidate directory base ext i = candidate directory base ext j → i = j.
Proof.
  unfold candidate. change (py "_") with [ch "_"]. cbn [app].
  destruct (path_join_numbered directory base) as [front Hfront].
  rewrite !Hfront. intros H.
  apply app_inv_head in H. injection H as H.
  apply app_inv_tail in H. by apply str_of_nat_inj.
Qed.

(** Names that all exist and never repeat are no more than the files. *)
Lemma existing_names_bounded (fs : filesystem) (f : nat → pystr) (n : nat) :
  (∀ i j, f i = f j → i = j) →
  (∀ k, (1 ≤ k ≤ n)%nat → path_exists fs (f k) = true) →
  (n ≤ size fs)%nat.
Proof.
  intros Hinj Hall.
  set (names := f <$> seq 1 n).
  assert (NoDup names) as Hnd.
  { apply NoDup_fmap_2; [intros i j; apply Hinj | apply NoDup_seq]. }
  assert (list_to_set names ⊆ dom fs) as Hsub.
  { intros p Hp. apply elem_of_list_to_set in Hp.
    apply list_elem_of_fmap in Hp as (k & -> & Hk).
    apply elem_of_seq in Hk. apply elem_of_dom, path_exists_true, Hall. lia. }
  apply subseteq_size in Hsub.
  rewrite size_list_to_set, size_dom in Hsub by done.
  unfold names in Hsub. by rewrite length_fmap, length_seq in Hsub.
Qed.

(** A loop that stops has met a free name, after names that all exist. *)
Lemma unique_loop_some (fuel : nat) (fs : filesystem)
    (directory base ext current : pystr) (i : nat) (p : pystr) :
  unique_loop fuel fs directory base ext current i = Some p →
  path_exists fs p = false
  ∧ ((p = current)
     ∨ (path_exists fs current = true
        ∧ ∃ j, (i ≤ j)%nat ∧ p = candidate directory base ext j
               ∧ ∀ k, (i ≤ k < j)%nat →
                      path_exists fs (candidate directory base ext k) = true)).
Proof.
  revert current i. induction fuel as [|fuel IH]; intros current i H; [done|].
  cbn [unique_loop] in H. destruct (path_exists fs current) eqn:E.
  - apply IH in H as [Hfree [->|(Hex & j & Hj & -> & Hbelow)]].
    + split; [done|]. right. split; [done|]. exists i.
      split; [lia|]. split; [done|]. intros k Hk. lia.
    + split; [done|]. right. split; [done|]. exists j.
      split; [lia|]. split; [done|]. intros k Hk.
      destruct (decide (k = i)) as [->|]; [done|]. apply Hbelow. lia.
  - injection H as ->. split; [done | by left].
Qed.

(** A loop that runs out of fuel has only met names that exist. *)
Lemma unique_loop_none (fuel : nat) (fs : filesystem)
    (directory base ext current : pystr) (i : nat) :
  unique_loop fuel fs directory base ext current i = None →
  ∀ k, (i ≤ k)%nat → (S k < i + fuel)%nat →
       path_exists fs (candidate directory base ext k) = true.
Proof.
  revert current i. induction fuel as [|fuel IH]; intros current i H k Hik Hk;
    [lia|].
  cbn [unique_loop] in H. destruct (path_exists fs current) eqn:E; [|done].
  destruct fuel as [|fuel]; [lia|].
  destruct (decide (k = i)) as [->|Hne].
  - cbn [unique_loop] in H. unfold candidate.
    by destruct (path_exists fs
                   (path_join directory (base ++ py "_" ++ str_of_nat i ++ ext))).
  - eapply IH; [exact H | lia | lia].
Qed.

(** The loop always stops within the fuel [make_unique_path] gives it. *)
Lemma make_unique_path_returns (fs : filesystem) (directory filename : pystr) :
  is_Some (make_unique_path fs directory filename).
Proof.
  unfold make_unique_path. destruct (splitext filename) as [base ext].
  destruct (unique_loop _ _ _ _ _ _ _) as [p|] eqn:E; [by eexists|].
  exfalso.
  assert (S (size fs) ≤ size fs)%nat; [|lia].
  apply (existing_names_bounded fs (candidate directory base ext)).
  - apply candidate_inj.
  - intros k Hk. eapply unique_loop_none; [exact E | lia | lia].
Qed.

(** ** The streaming loop *)

Local Open Scope Z_scope.

Lemma streamed_write (tmp_path : pystr) (fs : filesystem) (written chunk : bytes) :
  {| st_fs := fh_write tmp_path chunk (st_fs (streamed tmp_path fs written));
     st_sha := sha_update (st_sha (streamed tmp_path fs written)) chunk;
     st_total := st_total (streamed tmp_path fs written)
                 + Z.of_nat (length chunk) |}
  = streamed tmp_path fs (written ++ chunk).
Proof.
  unfold streamed, fh_write, sha_update. cbn [st_fs st_sha st_total].
  rewrite alter_insert_eq, length_app. f_equal. lia.
Qed.

Lemma stream_body_cons (max_bytes : Z) (tmp_path : pystr) (fs : filesystem)
    (chunk : bytes) (rest : list bytes) (raises : bool) (written : bytes) :
  stream_body max_bytes tmp_path (chunk :: rest) raises
    (streamed tmp_path fs written)
  = if bool_decide (chunk = []) then
      stream_body max_bytes tmp_path rest raises (streamed tmp_path fs written)
    else if max_bytes <? Z.of_nat (length (written ++ chunk)) then
      Overflow (streamed tmp_path fs (written ++ chunk))
    else
      stream_body max_bytes tmp_path rest raises
        (streamed tmp_path fs (written ++ chunk)).
Proof.
  destruct chunk as [|b chunk]; [done|].
  rewrite bool_decide_eq_false_2 by done.
  cbn [stream_body]. by rewrite streamed_write.
Qed.

(** However the loop ends, the file, the hash and the counter have seen the
    same bytes: a prefix of the chunks, all of them unless the limit cut in. *)
Lemma stream_body_exits (max_bytes : Z) (tmp_path : pystr) (fs : filesystem)
    (chunks : list bytes) (raises : bool) (written : bytes) :
  ∃ k, (k ≤ length chunks)%nat ∧
    let seen := written ++ concat (take k chunks) in
    (stream_body max_bytes tmp_path chunks raises (streamed tmp_path fs written)
       = Exhausted (streamed tmp_path fs seen)
     ∧ k = length chunks ∧ raises = false)
    ∨ (stream_body max_bytes tmp_path chunks raises (streamed tmp_path fs written)
       = Interrupted (streamed tmp_path fs seen)
       ∧ k = length chunks ∧ raises = true)
    ∨ (stream_body max_bytes tmp_path chunks raises (streamed tmp_path fs written)
       = Overflow (streamed tmp_path fs seen)
       ∧ max_bytes < Z.of_nat (length seen)
       ∧ Z.of_nat (length written) < Z.of_nat (length seen)).
Proof.
  revert written. induction chunks as [|chunk rest IH]; intros written.
  - exists 0%nat. split; [done|]. cbn [take concat stream_body length].
    rewrite app_nil_r. destruct raises; auto.
  - rewrite stream_body_cons. case_bool_decide as Hc.
    + subst chunk. destruct (IH written) as (k & Hk & H).
      exists (S k). split; [simpl; lia|]. cbn [take concat app length].
      cbn zeta in H.
      destruct H as [(?&?&?)|[(?&?&?)|(?&?&?)]];
        [left | right; left | right; right]; repeat split; auto; lia.
    + destruct (max_bytes <? Z.of_nat (length (written ++ chunk))) eqn:E.
      * exists 1%nat. split; [simpl; lia|]. cbn [take concat]. rewrite app_nil_r.
        right. right. split; [done|]. apply Z.ltb_lt in E. split; [done|].
        rewrite length_app. destruct chunk; [done|]. simpl. lia.
      * destruct (IH (written ++ chunk)) as (k & Hk & H).
        exists (S k). split; [simpl; lia|]. cbn [take concat length].
        cbn zeta in H. rewrite <- !app_assoc in H.
        destruct H as [(?&?&?)|[(?&?&?)|(?&?&?)]];
          [left | right; left | right; right]; repeat split; auto; try lia.
        rewrite !length_app in *. lia.
Qed.

(** A body that stays within the limit (or is empty) streams to the end. *)
Lemma stream_body_within (max_bytes : Z) (tmp_path : pystr) (fs : filesystem)
    (chunks : list bytes) (raises : bool) (written : bytes) :
  concat chunks = [] ∨ Z.of_nat (length written) + body_length chunks ≤ max_bytes →
  stream_body max_bytes tmp_path chunks raises (streamed tmp_path fs written)
  = (if raises then Interrupted else Exhausted)
      (streamed tmp_path fs (written ++ concat chunks)).
Proof.
  unfold body_length.
  revert written. induction chunks as [|chunk rest IH]; intros written H.
  - cbn [concat stream_body]. rewrite app_nil_r. by destruct raises.
  - rewrite stream_body_cons. cbn [concat] in *. case_bool_decide as Hc.
    + subst chunk. by apply IH.
    + rewrite length_app in H. rewrite length_app.
      destruct H as [H|H]; [by apply app_eq_nil in H as [? _]|].
      replace (max_bytes <? _) with false by (symmetry; apply Z.ltb_ge; lia).
      rewrite IH, <- app_assoc; [done|]. right. rewrite length_app. lia.
Qed.

(** A body that goes over the limit at some write is cut there. *)
Lemma stream_body_overflow (max_bytes : Z) (tmp_path : pystr) (fs : filesystem)
    (chunks : list bytes) (raises : bool) (written : bytes) :
  (∃ k, 0 < body_length (take k chunks)
        ∧ max_bytes < Z.of_nat (length written) + body_length (take k chunks)) →
  ∃ seen, stream_body max_bytes tmp_path chunks raises
            (streamed tmp_path fs written)
          = Overflow (streamed tmp_path fs seen).
Proof.
  unfold body_length.
  revert written. induction chunks as [|chunk rest IH]; intros written (k & Hpos & Hk).
  - rewrite take_nil in Hpos. simpl in Hpos. lia.
  - rewrite stream_body_cons. destruct k as [|k]; [simpl in Hpos; lia|].
    cbn [take concat] in *. case_bool_decide as Hc.
    + subst chunk. apply IH. by exists k.
    + destruct (max_bytes <? Z.of_nat (length (written ++ chunk))) eqn:E;
        [by eexists|].
      apply Z.ltb_ge in E. rewrite !length_app in *.
      apply IH. exists k. rewrite length_app. split; lia.
Qed.

(** ** [download_image]: the paths through the routine *)

Lemma download_image_streaming (u : url) (out_dir : pystr) (resp : response)
    (index : pyval) (max_bytes : Z) (e : env) (fs : filesystem) :
  passes_headers resp max_bytes →
  open_raises e = false →
  download_image u out_dir (Response resp) index max_bytes e fs
  = match stream_body max_bytes (tmp_path_of u out_dir resp) (body resp)
            (body_raises resp) (streamed (tmp_path_of u out_dir resp) fs [])
    with
    | Overflow st =>
        (Failed (AbortedSizeExceeded max_bytes),
         delete (tmp_path_of u out_dir resp) (st_fs st), index)
    | Interrupted st =>
        (Failed WriteError,
         remove_if_exists (tmp_path_of u out_dir resp) (st_fs st), index)
    | Exhausted st =>
        finalize u out_dir (filename_of u resp) (tmp_path_of u out_dir resp)
          (response_content_type resp) index e st
    end.
Proof.
  intros (Hs & Ht & Hl) Ho. unfold download_image.
  by rewrite Hs, Ht, Hl, Ho.
Qed.

Lemma remove_if_exists_streamed (tmp_path : pystr) (fs : filesystem) (w : bytes) :
  remove_if_exists tmp_path (st_fs (streamed tmp_path fs w)) = delete tmp_path fs.
Proof.
  unfold remove_if_exists, path_exists, streamed. cbn [st_fs].
  by rewrite lookup_insert_eq, delete_insert_eq.
Qed.

Lemma os_replace_streamed (tmp_path final_path : pystr) (fs : filesystem)
    (w : bytes) :
  os_replace tmp_path final_path (st_fs (streamed tmp_path fs w))
  = <[final_path := w]> (delete tmp_path fs).
Proof.
  unfold os_replace, streamed. cbn [st_fs].
  by rewrite lookup_insert_eq, delete_insert_eq.
Qed.

Lemma index_fields_lookup (final_path url content_type : pystr) (total now : Z) :
  let fields := index_fields final_path url content_type total now in
  fields !! py "filename" = Some (VStr (basename final_path))
  ∧ fields !! py "url" = Some (VStr url)
  ∧ fields !! py "content_type" = Some (VStr content_type)
  ∧ fields !! py "size" = Some (VInt total)
  ∧ fields !! py "timestamp" = Some (VInt now).
Proof. repeat split; by vm_compute. Qed.

(** A call that gets through every check saves the file and files it. *)
Lemma download_image_saves (u : url) (out_dir : pystr) (resp : response)
    (d : gmap pystr pyval) (max_bytes : Z) (e : env) (fs : filesystem) :
  passes_headers resp max_bytes →
  open_raises e = false →
  body_raises resp = false →
  fits max_bytes resp →
  d !! SHA256.hexdigest (content resp) = None →
  replace_raises e = false →
  ∃ final_path,
    make_unique_path (<[tmp_path_of u out_dir resp := content resp]> fs)
      out_dir (filename_of u resp) = Some final_path
    ∧ download_image u out_dir (Response resp) (VDict d) max_bytes e fs
      = (Saved final_path,
         <[final_path := content resp]> (delete (tmp_path_of u out_dir resp) fs),
         VDict (<[SHA256.hexdigest (content resp) :=
                    saved_record u resp e final_path]> d)).
Proof.
  intros Hh Ho Hb Hfit Hd Hr.
  rewrite download_image_streaming by done.
  rewrite stream_body_within, Hb by (destruct Hfit; [left | right]; done).
  cbn [app]. fold (content resp).
  unfold finalize, sha_hexdigest, py_contains.
  cbn [st_sha st_fs st_total streamed]. rewrite Hd.
  destruct (make_unique_path_returns
              (<[tmp_path_of u out_dir resp := content resp]> fs)
              out_dir (filename_of u resp)) as [p Hp].
  exists p. split; [done|]. rewrite Hp, Hr.
  unfold py_setitem.
  change (<[tmp_path_of u out_dir resp := content resp]> fs)
    with (st_fs (streamed (tmp_path_of u out_dir resp) fs (content resp))).
  by rewrite os_replace_streamed.
Qed.

(** Conversely, a call that returns success went through every check. *)
Lemma download_image_saved_inv (u : url) (out_dir : pystr) (session : get_result)
    (index : pyval) (max_bytes : Z) (e : env) (fs fs' : filesystem)
    (final_path : pystr) (index' : pyval) :
  download_image u out_dir session index max_bytes e fs
    = (Saved final_path, fs', index') →
  ∃ resp d,
    session = Response resp
    ∧ index = VDict d
    ∧ passes_headers resp max_bytes
    ∧ d !! SHA256.hexdigest (content resp) = None
    ∧ make_unique_path (<[tmp_path_of u out_dir resp := content resp]> fs)
        out_dir (filename_of u resp) = Some final_path
    ∧ fs' = <[final_path := content resp]> (delete (tmp_path_of u out_dir resp) fs)
    ∧ index' = VDict (<[SHA256.hexdigest (content resp) :=
                          saved_record u resp e final_path]> d).
Proof.
  intros H. destruct session as [|resp]; [done|].
  unfold download_image in H.
  destruct (raise_for_status resp) eqn:Hs; [done|].
  destruct (allowed_type (response_content_type resp)) eqn:Ht; [|done].
  cbn [negb] in H.
  destruct (declared_too_long resp max_bytes) eqn:Hl; [done|].
  destruct (open_raises e) eqn:Ho; [done|].
  fold (filename_of u resp) in H. fold (tmp_path_of u out_dir resp) in H.
  change {| st_fs := <[tmp_path_of u out_dir resp := []]> fs;
            st_sha := []; st_total := 0 |}
    with (streamed (tmp_path_of u out_dir resp) fs []) in H.
  destruct (stream_body_exits max_bytes (tmp_path_of u out_dir resp) fs
              (body resp) (body_raises resp) []) as (k & Hk & Hexit).
  cbn zeta in Hexit. cbn [app] in Hexit.
  destruct Hexit as [(Hx & -> & Hb)|[(Hx & _)|(Hx & _)]];
    rewrite Hx in H; [|done|done].
  rewrite firstn_all in H. fold (content resp) in H.
  unfold finalize, sha_hexdigest in H. cbn [st_sha st_fs st_total streamed] in H.
  destruct index as [|b|z|m x|s|l|d]; try done.
  - cbn [py_contains] in H.
    destruct (contains_str _ _); [done|].
    destruct (make_unique_path _ _ _); [|done].
    by destruct (replace_raises e).
  - cbn [py_contains py_getitem] in H.
    destruct (existsb _ l); [done|].
    destruct (make_unique_path _ _ _); [|done].
    by destruct (replace_raises e).
  - cbn [py_contains] in H.
    destruct (d !! SHA256.hexdigest (content resp)) as [existing|] eqn:Hd.
    + cbn [py_getitem] in H. rewrite Hd in H.
      destruct (py_getitem existing (py "filename")); [done|].
      by destruct (py_get existing (py "url")).
    + destruct (make_unique_path _ _ _) as [p|] eqn:Hp; [|done].
      destruct (replace_raises e); [done|].
      cbn [py_setitem] in H.
      change (<[tmp_path_of u out_dir resp := content resp]> fs)
        with (st_fs (streamed (tmp_path_of u out_dir resp) fs (content resp))) in H.
      rewrite os_replace_streamed in H.
      injection H as -> <- <-.
      exists resp, d. repeat split; done.
Qed.

(** Every way a call on a response can go. *)
Lemma download_image_cases (u : url) (out_dir : pystr) (resp : response)
    (index : pyval) (max_bytes : Z) (e : env) (fs : filesystem) :
  let r := download_image u out_dir (Response resp) index max_bytes e fs in
  let content_type := response_content_type resp in
  let tmp_path := tmp_path_of u out_dir resp in
  (raise_for_status resp = true
   ∧ r = (Failed (HTTPError (status_code resp)), fs, index))
  ∨ (raise_for_status resp = false ∧ allowed_type content_type = false
     ∧ r = (Failed (RejectedContentType content_type), fs, index))
  ∨ (raise_for_status resp = false ∧ allowed_type content_type = true
     ∧ declared_too_long resp max_bytes = true
     ∧ r = (Failed (RejectedContentLength
                      (default [] (content_length_header resp)) max_bytes),
            fs, index))
  ∨ (passes_headers resp max_bytes ∧ open_raises e = true
     ∧ r = (Failed WriteError, remove_if_exists tmp_path fs, index))
  ∨ (passes_headers resp max_bytes ∧ open_raises e = false
     ∧ (∃ k, 0 < body_length (take k (body resp))
             ∧ max_bytes < body_length (take k (body resp)))
     ∧ r = (Failed (AbortedSizeExceeded max_bytes), delete tmp_path fs, index))
  ∨ (passes_headers resp max_bytes ∧ open_raises e = false
     ∧ body_raises resp = true
     ∧ r = (Failed WriteError, delete tmp_path fs, index))
  ∨ (passes_headers resp max_bytes ∧ open_raises e = false
     ∧ body_raises resp = false
     ∧ r = finalize u out_dir (filename_of u resp) tmp_path content_type index e
             (streamed tmp_path fs (content resp))).
Proof.
  cbn zeta.
  destruct (raise_for_status resp) eqn:Hs.
  { left. split; [done|]. unfold download_image. by rewrite Hs. }
  right.
  destruct (allowed_type (response_content_type resp)) eqn:Ht.
  2: { left. do 2 (split; [done|]). unfold download_image. by rewrite Hs, Ht. }
  right.
  destruct (declared_too_long resp max_bytes) eqn:Hl.
  { left. do 3 (split; [done|]). unfold download_image. by rewrite Hs, Ht, Hl. }
  right.
  assert (passes_headers resp max_bytes) as Hh by done.
  destruct (open_raises e) eqn:Ho.
  { left. do 2 (split; [done|]). unfold download_image.
    by rewrite Hs, Ht, Hl, Ho. }
  right. rewrite download_image_streaming by done.
  destruct (stream_body_exits max_bytes (tmp_path_of u out_dir resp) fs
              (body resp) (body_raises resp) []) as (k & Hk & Hexit).
  cbn zeta in Hexit. cbn [app length] in Hexit.
  destruct Hexit as [(-> & -> & Hb)|[(-> & -> & Hb)|(-> & Hover & Hpos)]].
  - do 2 right. rewrite firstn_all. by repeat split.
  - right. left. rewrite remove_if_exists_streamed. by repeat split.
  - left. do 2 (split; [done|]). split; [by exists k|].
    unfold streamed. cbn [st_fs]. by rewrite delete_insert_eq.
Qed.

(** What the last steps can return: a duplicate, a failed move, a saved
    path, or an exception out of the index operations. *)
Lemma finalize_results (u : url) (out_dir filename tmp_path content_type : pystr)
    (index : pyval) (e : env) (st : stream) :
  match (finalize u out_dir filename tmp_path content_type index e st).1.1 with
  | Saved _ | Raised _ | Failed (Duplicate _ _) | Failed FinalizeFailed => True
  | Failed _ | NoReturn => False
  end.
Proof.
  unfold finalize.
  destruct (py_contains _ index) as [err|[|]]; [done| |].
  - destruct (py_getitem index _) as [err|existing]; [done|].
    destruct (py_getitem existing _) as [err|name]; [done|].
    by destruct (py_get existing _).
  - destruct (make_unique_path_returns (st_fs st) out_dir filename) as [p ->].
    destruct (replace_raises e); [done|].
    by destruct (py_setitem index _ _).
Qed.

(** The call always returns or raises: the loop of [make_unique_path]
    never runs out of names to try. *)
Lemma download_image_returns (u : url) (out_dir : pystr) (session : get_result)
    (index : pyval) (max_bytes : Z) (e : env) (fs : filesystem) :
  (download_image u out_dir session index max_bytes e fs).1.1 ≠ NoReturn.
Proof.
  destruct session as [|resp]; [done|].
  pose proof (finalize_results u out_dir (filename_of u resp)
                (tmp_path_of u out_dir resp) (response_content_type resp)
                index e (streamed (tmp_path_of u out_dir resp) fs (content resp)))
    as Hfin.
  destruct (download_image_cases u out_dir resp index max_bytes e fs)
    as [(_ & E)|[(_ & _ & E)|[(_ & _ & _ & E)|[(_ & _ & E)
       |[(_ & _ & _ & E)|[(_ & _ & _ & E)|(_ & _ & _ & E)]]]]]];
    rewrite E; cbn [fst snd]; try done.
  intros Hr. by rewrite Hr in Hfin.
Qed.

(** ** Size cap during the transfer *)

(** C1: when the count of body bytes written goes over [max_bytes] at some
    write of the streaming loop, the call returns the size-exceeded failure,
    the temporary file is gone from the output directory (which is otherwise
    as it was), and the index is the one that was passed in. *)
Theorem overflow_aborts_and_cleans (u : url) (out_dir : pystr) (resp : response)
    (index : pyval) (max_bytes : Z) (e : env) (fs : filesystem) :
  passes_headers resp max_bytes →
  open_raises e = false →
  (∃ k, 0 < body_length (take k (body resp))
        ∧ max_bytes < body_length (take k (body resp))) →
  download_image u out_dir (Response resp) index max_bytes e fs
    = (Failed (AbortedSizeExceeded max_bytes),
       delete (tmp_path_of u out_dir resp) fs, index)
  ∧ delete (tmp_path_of u out_dir resp) fs !! tmp_path_of u out_dir resp = None.
Proof.
  intros Hh Ho (k & Hpos & Hk). split; [|apply lookup_delete_eq].
  rewrite download_image_streaming by done.
  destruct (stream_body_overflow max_bytes (tmp_path_of u out_dir resp) fs
              (body resp) (body_raises resp) []) as [seen ->].
  { exists k. split; [done|]. simpl. lia. }
  unfold streamed. cbn [st_fs]. by rewrite delete_insert_eq.
Qed.

Lemma overflow_aborts_and_cleans_witness :
  let resp := jpeg_response None [bytes_of "ab"; bytes_of "cd"] in
  passes_headers resp 3
  ∧ open_raises healthy = false
  ∧ (∃ k, 0 < body_length (take k (body resp))
          ∧ 3 < body_length (take k (body resp)))
  ∧ download_image a_jpg OUTPUT_DIR (Response resp) (VDict ∅) 3 healthy ∅
    = (Failed (AbortedSizeExceeded 3), ∅, VDict ∅).
Proof.
  cbn zeta.
  assert (passes_headers (jpeg_response None [bytes_of "ab"; bytes_of "cd"]) 3)
    as H1 by (repeat split; by_evaluation).
  assert (∃ k, 0 < body_length
                     (take k (body (jpeg_response None [bytes_of "ab"; bytes_of "cd"])))
               ∧ 3 < body_length
                       (take k (body (jpeg_response None [bytes_of "ab"; bytes_of "cd"]))))
    as H3 by (exists 2%nat; split; reflexivity).
  split; [exact H1|]. split; [reflexivity|]. split; [exact H3|].
  exact (proj1 (overflow_aborts_and_cleans a_jpg OUTPUT_DIR
                  (jpeg_response None [bytes_of "ab"; bytes_of "cd"])
                  (VDict ∅) 3 healthy ∅ H1 eq_refl H3)).
Defined.

(** ** Duplicates *)

(** What a call does when it reaches the duplicate check with a digest
    that is a key of a dict index, whatever the record under it: the
    temporary file is removed, the directory gains no file and the index is
    unchanged.  The duplicate failure comes back when the record is a dict
    with a [filename]; a dict without one makes [existing['filename']] raise
    [KeyError], and a record that is no dict makes it raise [TypeError]. *)
Lemma duplicate_check_cleans_up (u : url) (out_dir : pystr) (resp : response)
    (max_bytes : Z) (e : env) (fs : filesystem) (d : gmap pystr pyval)
    (record : pyval) :
  passes_headers resp max_bytes →
  open_raises e = false →
  body_raises resp = false →
  fits max_bytes resp →
  d !! SHA256.hexdigest (content resp) = Some record →
  download_image u out_dir (Response resp) (VDict d) max_bytes e fs
  = (match record with
     | VDict existing =>
         match existing !! py "filename" with
         | Some name =>
             Failed (Duplicate name (default VNone (existing !! py "url")))
         | None => Raised KeyError
         end
     | _ => Raised TypeError
     end,
     delete (tmp_path_of u out_dir resp) fs, VDict d).
Proof.
  intros Hh Ho Hb Hfit Hd.
  rewrite download_image_streaming by done.
  rewrite stream_body_within, Hb by (destruct Hfit; [left | right]; done).
  cbn [app]. fold (content resp).
  unfold finalize, sha_hexdigest.
  rewrite remove_if_exists_streamed.
  cbn [st_sha streamed py_contains py_getitem]. rewrite Hd.
  destruct record as [| | | | | |existing]; try done.
  cbn [py_getitem py_get].
  by destruct (existing !! py "filename").
Qed.

(** With a record that carries a filename, the duplicate failure comes
    back.  In particular, with the index left by an earlier successful
    call, a call whose body has the same bytes is reported as a duplicate
    of the file saved then. *)
Theorem duplicate_is_rejected (u : url) (out_dir : pystr) (resp : response)
    (max_bytes : Z) (e : env) (fs : filesystem) :
  passes_headers resp max_bytes →
  open_raises e = false →
  body_raises resp = false →
  fits max_bytes resp →
  (∀ (d existing : gmap pystr pyval) (name : pyval),
     d !! SHA256.hexdigest (content resp) = Some (VDict existing) →
     existing !! py "filename" = Some name →
     download_image u out_dir (Response resp) (VDict d) max_bytes e fs
     = (Failed (Duplicate name (default VNone (existing !! py "url"))),
        delete (tmp_path_of u out_dir resp) fs, VDict d))
  ∧ (∀ u0 out_dir0 resp0 index0 max_bytes0 e0 fs0 final_path fs1 index1,
       download_image u0 out_dir0 (Response resp0) index0 max_bytes0 e0 fs0
         = (Saved final_path, fs1, index1) →
       content resp0 = content resp →
       download_image u out_dir (Response resp) index1 max_bytes e fs
       = (Failed (Duplicate (VStr (basename final_path)) (VStr (url_text u0))),
          delete (tmp_path_of u out_dir resp) fs, index1)).
Proof.
  intros Hh Ho Hb Hfit.
  assert (∀ (d existing : gmap pystr pyval) (name : pyval),
     d !! SHA256.hexdigest (content resp) = Some (VDict existing) →
     existing !! py "filename" = Some name →
     download_image u out_dir (Response resp) (VDict d) max_bytes e fs
     = (Failed (Duplicate name (default VNone (existing !! py "url"))),
        delete (tmp_path_of u out_dir resp) fs, VDict d)) as Hdup.
  { intros d existing name Hd Hname.
    rewrite download_image_streaming by done.
    rewrite stream_body_within, Hb by (destruct Hfit; [left | right]; done).
    cbn [app]. fold (content resp).
    unfold finalize, sha_hexdigest.
    rewrite remove_if_exists_streamed.
    cbn [st_sha streamed py_contains py_getitem]. rewrite Hd.
    cbn [py_getitem py_get].
    by rewrite Hname. }
  split; [exact Hdup|].
  intros u0 out_dir0 resp0 index0 max_bytes0 e0 fs0 final_path fs1 index1 Hrun Hsame.
  apply download_image_saved_inv in Hrun
    as (resp0' & d & [= <-] & -> & _ & _ & _ & _ & ->).
  rewrite Hsame. unfold saved_record, index_record.
  destruct (index_fields_lookup final_path (url_text u0)
              (response_content_type resp0)
              (Z.of_nat (length (content resp0))) (clock e0))
    as (Hname & Hurl & _).
  erewrite Hdup; [|apply lookup_insert_eq|exact Hname].
  by rewrite Hurl.
Qed.

Lemma duplicate_is_rejected_witness :
  let resp := jpeg_response None [bytes_of "abc"] in
  let d : gmap pystr pyval :=
    {[ SHA256.hexdigest (bytes_of "abc") :=
         VDict {[ py "filename" := VStr (py "a.jpg") ]} ]} in
  passes_headers resp MAX_BYTES
  ∧ fits MAX_BYTES resp
  ∧ d !! SHA256.hexdigest (content resp)
    = Some (VDict {[ py "filename" := VStr (py "a.jpg") ]})
  ∧ download_image a_jpg OUTPUT_DIR (Response resp) (VDict d) MAX_BYTES healthy ∅
    = (Failed (Duplicate (VStr (py "a.jpg")) VNone), ∅, VDict d).
Proof.
  cbn zeta.
  assert (passes_headers (jpeg_response None [bytes_of "abc"]) MAX_BYTES)
    as H1 by (repeat split; by_evaluation).
  assert (fits MAX_BYTES (jpeg_response None [bytes_of "abc"]))
    as H2 by (right; vm_compute; discriminate).
  split; [exact H1|]. split; [exact H2|]. split; [apply lookup_singleton_eq|].
  exact (proj1 (duplicate_is_rejected a_jpg OUTPUT_DIR
                  (jpeg_response None [bytes_of "abc"]) MAX_BYTES healthy ∅
                  H1 eq_refl eq_refl H2)
           _ {[ py "filename" := VStr (py "a.jpg") ]} (VStr (py "a.jpg"))
           (lookup_singleton_eq _ _) (lookup_singleton_eq _ _)).
Defined.

(** C2: with a record without [filename] under the digest of the body, the
    digest is a key of the index and the call reaches the duplicate check,
    and yet no duplicate failure comes back: the temporary file is removed,
    no file is added, the index is unchanged, and [existing['filename']]
    raises [KeyError], which leaves the call.  The look-up of the URL right
    beside it goes through [get] and cannot raise; with a filename in the
    record the same call reports the duplicate. *)
Theorem duplicate_report_raises_without_filename :
  load_index index_of_records_without_filename
  = VDict {[ SHA256.hexdigest (content (jpeg_response None [bytes_of "abc"]))
             := VDict ∅ ]}
  ∧ passes_headers (jpeg_response None [bytes_of "abc"]) MAX_BYTES
  ∧ fits MAX_BYTES (jpeg_response None [bytes_of "abc"])
  ∧ py_contains (SHA256.hexdigest (content (jpeg_response None [bytes_of "abc"])))
      (load_index index_of_records_without_filename)
    = inr true
  ∧ download_image a_jpg OUTPUT_DIR
      (Response (jpeg_response None [bytes_of "abc"]))
      (load_index index_of_records_without_filename) MAX_BYTES healthy ∅
    = (Raised KeyError, ∅, load_index index_of_records_without_filename)
  ∧ download_image a_jpg OUTPUT_DIR
      (Response (jpeg_response None [bytes_of "abc"]))
      (VDict {[ SHA256.hexdigest (bytes_of "abc")
                := VDict {[ py "filename" := VStr (py "a.jpg") ]} ]})
      MAX_BYTES healthy ∅
    = (Failed (Duplicate (VStr (py "a.jpg")) VNone), ∅,
       VDict {[ SHA256.hexdigest (bytes_of "abc")
                := VDict {[ py "filename" := VStr (py "a.jpg") ]} ]}).
Proof.
  split; [reflexivity|].
  split; [repeat split; by_evaluation|].
  split; [right; vm_compute; discriminate|].
  split; [by_evaluation|].
  split; by_evaluation.
Qed.

(** ** The index entry and the file it describes *)

(** C9: after a successful call the file at the returned path holds the
    bytes [data] of the response body, chunk after chunk; the index is the
    old one with one new entry, keyed by the SHA-256 hex digest of [data],
    and the [size] of that entry is the number of bytes of [data] (its
    [filename] is the base name of the path). *)
Theorem index_entry_matches_file (u : url) (out_dir : pystr)
    (session : get_result) (index : pyval) (max_bytes : Z) (e : env)
    (fs fs' : filesystem) (final_path : pystr) (index' : pyval) :
  download_image u out_dir session index max_bytes e fs
    = (Saved final_path, fs', index') →
  ∃ (resp : response) (data : bytes) (d record : gmap pystr pyval),
    session = Response resp
    ∧ data = content resp
    ∧ fs' !! final_path = Some data
    ∧ index = VDict d
    ∧ d !! SHA256.hexdigest data = None
    ∧ index' = VDict (<[SHA256.hexdigest data := VDict record]> d)
    ∧ record !! py "size" = Some (VInt (Z.of_nat (length data)))
    ∧ record !! py "filename" = Some (VStr (basename final_path)).
Proof.
  intros H.
  apply download_image_saved_inv in H
    as (resp & d & -> & -> & _ & Hd & _ & -> & ->).
  exists resp, (content resp), d. eexists.
  split; [done|]. split; [done|].
  split; [apply lookup_insert_eq|].
  split; [done|]. split; [done|].
  split; [reflexivity|].
  destruct (index_fields_lookup final_path (url_text u)
              (response_content_type resp)
              (Z.of_nat (length (content resp))) (clock e))
    as (Hname & _ & _ & Hsize & _).
  done.
Qed.

Lemma index_entry_matches_file_witness :
  let final_path := py "Fetched_Images/a.jpg" in
  let fs' : filesystem := {[ final_path := bytes_of "abc" ]} in
  let index' :=
    VDict {[ SHA256.hexdigest (bytes_of "abc") :=
               index_record final_path (url_text a_jpg) (py "image/jpeg") 3
                 (clock healthy) ]} in
  download_image a_jpg OUTPUT_DIR
    (Response (jpeg_response (Some (py "3")) [bytes_of "ab"; bytes_of "c"]))
    (VDict ∅) MAX_BYTES healthy ∅
  = (Saved final_path, fs', index')
  ∧ ∃ (resp : response) (data : bytes) (d record : gmap pystr pyval),
      Response (jpeg_response (Some (py "3")) [bytes_of "ab"; bytes_of "c"])
      = Response resp
      ∧ data = content resp
      ∧ fs' !! final_path = Some data
      ∧ VDict ∅ = VDict d
      ∧ d !! SHA256.hexdigest data = None
      ∧ index' = VDict (<[SHA256.hexdigest data := VDict record]> d)
      ∧ record !! py "size" = Some (VInt (Z.of_nat (length data)))
      ∧ record !! py "filename" = Some (VStr (basename final_path)).
Proof.
  cbn zeta.
  assert (download_image a_jpg OUTPUT_DIR
            (Response (jpeg_response (Some (py "3")) [bytes_of "ab"; bytes_of "c"]))
            (VDict ∅) MAX_BYTES healthy ∅
          = (Saved (py "Fetched_Images/a.jpg"),
             {[ py "Fetched_Images/a.jpg" := bytes_of "abc" ]},
             VDict {[ SHA256.hexdigest (bytes_of "abc") :=
                        index_record (py "Fetched_Images/a.jpg") (url_text a_jpg)
                          (py "image/jpeg") 3 (clock healthy) ]}))
    as Hrun by by_evaluation.
  split; [exact Hrun|].
  exact (index_entry_matches_file _ _ _ _ _ _ _ _ _ _ Hrun).
Defined.

(** ** Content-type check *)

(** C5: for a response that got past the status check, the call returns the
    content-type rejection exactly when the normalised [Content-Type] fails
    to both start with [image/] and belong to [ALLOWED_IMAGE_TYPES]; a
    rejection leaves the output directory and the index as they were. *)
Theorem content_type_gate (u : url) (out_dir : pystr) (resp : response)
    (index : pyval) (max_bytes : Z) (e : env) (fs : filesystem) :
  raise_for_status resp = false →
  let content_type := response_content_type resp in
  let r := download_image u out_dir (Response resp) index max_bytes e fs in
  ((∃ t, r.1.1 = Failed (RejectedContentType t))
   ↔ ¬ (startswith (py "image/") content_type = true
        ∧ content_type ∈ ALLOWED_IMAGE_TYPES))
  ∧ ((∃ t, r.1.1 = Failed (RejectedContentType t)) →
     r = (Failed (RejectedContentType content_type), fs, index)).
Proof.
  intros Hs. cbn zeta.
  assert (allowed_type (response_content_type resp) = true
          ↔ startswith (py "image/") (response_content_type resp) = true
            ∧ response_content_type resp ∈ ALLOWED_IMAGE_TYPES) as Hallowed.
  { unfold allowed_type. by rewrite andb_true_iff, bool_decide_eq_true. }
  pose proof (finalize_results u out_dir (filename_of u resp)
                (tmp_path_of u out_dir resp) (response_content_type resp)
                index e (streamed (tmp_path_of u out_dir resp) fs (content resp)))
    as Hfin.
  destruct (download_image_cases u out_dir resp index max_bytes e fs)
    as [(? & _)|[(_ & Ht & ->)|[(_ & Ht & _ & ->)|[((_ & Ht & _) & _ & ->)
       |[((_ & Ht & _) & _ & _ & ->)|[((_ & Ht & _) & _ & _ & ->)
       |((_ & Ht & _) & _ & _ & ->)]]]]]]; [congruence|..];
    cbn [fst snd].
  - split; [|done]. split; [|by eexists].
    intros _ Hall%Hallowed. congruence.
  - split; [|by intros [t ?]]. split; [by intros [t ?]|].
    intros Hn. destruct Hn. by apply Hallowed.
  - split; [|by intros [t ?]]. split; [by intros [t ?]|].
    intros Hn. destruct Hn. by apply Hallowed.
  - split; [|by intros [t ?]]. split; [by intros [t ?]|].
    intros Hn. destruct Hn. by apply Hallowed.
  - split; [|by intros [t ?]]. split; [by intros [t ?]|].
    intros Hn. destruct Hn. by apply Hallowed.
  - assert (¬ ∃ t, (finalize u out_dir (filename_of u resp)
                      (tmp_path_of u out_dir resp) (response_content_type resp)
                      index e
                      (streamed (tmp_path_of u out_dir resp) fs (content resp))).1.1
                   = Failed (RejectedContentType t)) as Hno.
    { intros [t Ht']. by rewrite Ht' in Hfin. }
    split; [|by intros ?]. split; [by intros ?|].
    intros Hn. destruct Hn. by apply Hallowed.
Qed.

Lemma content_type_gate_witness :
  raise_for_status html_response = false
  ∧ ((∃ t, (download_image a_jpg OUTPUT_DIR (Response html_response) (VDict ∅)
              MAX_BYTES healthy ∅).1.1 = Failed (RejectedContentType t))
     ↔ ¬ (startswith (py "image/") (response_content_type html_response) = true
          ∧ response_content_type html_response ∈ ALLOWED_IMAGE_TYPES))
  ∧ ((∃ t, (download_image a_jpg OUTPUT_DIR (Response html_response) (VDict ∅)
              MAX_BYTES healthy ∅).1.1 = Failed (RejectedContentType t)) →
     download_image a_jpg OUTPUT_DIR (Response html_response) (VDict ∅)
       MAX_BYTES healthy ∅
     = (Failed (RejectedContentType (response_content_type html_response)),
        ∅, VDict ∅)).
Proof.
  split; [reflexivity|].
  exact (content_type_gate a_jpg OUTPUT_DIR html_response (VDict ∅)
           MAX_BYTES healthy ∅ eq_refl).
Defined.

(** ** Declared length *)

(** C6: with a [Content-Length] header that reads as an integer above
    [max_bytes], the call fails with the output directory and the index
    untouched (nothing is written, no temporary file appears), and the
    failure is the declared-length rejection once status and type passed;
    with a header that does not read as an integer, the call goes exactly
    as it would without the header. *)
Theorem declared_length_gate (u : url) (out_dir : pystr) (resp : response)
    (index : pyval) (max_bytes : Z) (e : env) (fs : filesystem)
    (content_length : pystr) :
  content_length_header resp = Some content_length →
  (∀ n, py_int content_length = Some n → max_bytes < n →
     ∃ why,
       download_image u out_dir (Response resp) index max_bytes e fs
         = (Failed why, fs, index)
       ∧ (raise_for_status resp = false →
          allowed_type (response_content_type resp) = true →
          why = RejectedContentLength content_length max_bytes))
  ∧ (py_int content_length = None →
     download_image u out_dir (Response resp) index max_bytes e fs
     = download_image u out_dir (Response (without_content_length resp))
         index max_bytes e fs).
Proof.
  intros Hcl. split.
  - intros n Hn Hgt.
    assert (declared_too_long resp max_bytes = true) as Hl.
    { unfold declared_too_long. rewrite Hcl.
      destruct content_length as [|c cl]; [by vm_compute in Hn|].
      cbn [str_empty]. rewrite Hn. by apply Z.ltb_lt. }
    unfold download_image.
    destruct (raise_for_status resp); [by eexists|].
    destruct (allowed_type (response_content_type resp)); cbn [negb];
      [|by eexists].
    rewrite Hl, Hcl. by eexists.
  - intros Hn.
    assert (declared_too_long resp max_bytes = false) as Hl.
    { unfold declared_too_long. rewrite Hcl, Hn. by destruct (str_empty _). }
    unfold download_image. by rewrite Hl.
Qed.

Lemma declared_length_gate_witness :
  let resp := jpeg_response (Some (py "11")) [bytes_of "abc"] in
  content_length_header resp = Some (py "11")
  ∧ py_int (py "11") = Some 11
  ∧ ∃ why,
      download_image a_jpg OUTPUT_DIR (Response resp) (VDict ∅) 10 healthy ∅
      = (Failed why, ∅, VDict ∅)
      ∧ (raise_for_status resp = false →
         allowed_type (response_content_type resp) = true →
         why = RejectedContentLength (py "11") 10).
Proof.
  cbn zeta. split; [reflexivity|].
  assert (py_int (py "11") = Some 11) as Hint by by_evaluation.
  split; [exact Hint|].
  apply (proj1 (declared_length_gate a_jpg OUTPUT_DIR
                  (jpeg_response (Some (py "11")) [bytes_of "abc"]) (VDict ∅) 10
                  healthy ∅ (py "11") eq_refl) 11 Hint).
  lia.
Defined.

(** ** Choice of the final path *)

Lemma make_unique_path_spec (fs : filesystem) (directory filename : pystr) :
  ∃ p,
    make_unique_path fs directory filename = Some p
    ∧ path_exists fs p = false
    ∧ (splitext filename).1 ++ (splitext filename).2 = filename
    ∧ if path_exists fs (path_join directory filename) then
        ∃ i, (1 ≤ i)%nat
             ∧ p = candidate directory (splitext filename).1
                     (splitext filename).2 i
             ∧ ∀ k, (1 ≤ k < i)%nat →
                    path_exists fs (candidate directory (splitext filename).1
                                      (splitext filename).2 k) = true
      else p = path_join directory filename.
Proof.
  destruct (make_unique_path_returns fs directory filename) as [p Hp].
  exists p. split; [done|].
  unfold make_unique_path in Hp.
  destruct (splitext_spec filename) as [Hsplit _].
  destruct (splitext filename) as [base ext]. cbn [fst snd] in *.
  apply unique_loop_some in Hp as [Hfree Hp].
  split; [done|]. split; [done|].
  destruct (path_exists fs (path_join directory filename)) eqn:E.
  - destruct Hp as [->|(_ & j & Hj & -> & Hbelow)]; [congruence|].
    by exists j.
  - by destruct Hp as [->|(? & _)].
Qed.

(** C7: [make_unique_path] always returns, and the path it returns does not
    exist: it is the plain path when that is free, and otherwise the first
    free one among the names with [_1], [_2], ... put between the base name
    and the extension.  Hence two calls that go through for the same target
    filename, with digests that differ and are new to the index, both save
    their file, under different paths, and both files are there afterwards. *)
Theorem unique_path_avoids_collisions :
  (∀ (fs : filesystem) (directory filename : pystr),
     ∃ p,
       make_unique_path fs directory filename = Some p
       ∧ path_exists fs p = false
       ∧ (splitext filename).1 ++ (splitext filename).2 = filename
       ∧ if path_exists fs (path_join directory filename) then
           ∃ i, (1 ≤ i)%nat
                ∧ p = path_join directory
                        ((splitext filename).1 ++ py "_" ++ str_of_nat i
                         ++ (splitext filename).2)
                ∧ ∀ k, (1 ≤ k < i)%nat →
                       path_exists fs
                         (path_join directory
                            ((splitext filename).1 ++ py "_" ++ str_of_nat k
                             ++ (splitext filename).2)) = true
         else p = path_join directory filename)
  ∧ (∀ (u1 u2 : url) (out_dir : pystr) (resp1 resp2 : response)
       (d : gmap pystr pyval) (max1 max2 : Z) (e1 e2 : env) (fs : filesystem),
       goes_through resp1 max1 e1 →
       goes_through resp2 max2 e2 →
       filename_of u1 resp1 = filename_of u2 resp2 →
       d !! SHA256.hexdigest (content resp1) = None →
       d !! SHA256.hexdigest (content resp2) = None →
       SHA256.hexdigest (content resp1) ≠ SHA256.hexdigest (content resp2) →
       ∃ p1 p2 fs1 index1 fs2 index2,
         download_image u1 out_dir (Response resp1) (VDict d) max1 e1 fs
           = (Saved p1, fs1, index1)
         ∧ download_image u2 out_dir (Response resp2) index1 max2 e2 fs1
           = (Saved p2, fs2, index2)
         ∧ p1 ≠ p2
         ∧ fs2 !! p1 = Some (content resp1)
         ∧ fs2 !! p2 = Some (content resp2)).
Proof.
  split; [exact make_unique_path_spec|].
  intros u1 u2 out_dir resp1 resp2 d max1 max2 e1 e2 fs
    (Hh1 & Ho1 & Hb1 & Hf1 & Hr1) (Hh2 & Ho2 & Hb2 & Hf2 & Hr2)
    Hname Hd1 Hd2 Hne.
  destruct (download_image_saves u1 out_dir resp1 d max1 e1 fs)
    as (p1 & Hp1 & Hrun1); try done.
  set (d1 := <[SHA256.hexdigest (content resp1) :=
                 saved_record u1 resp1 e1 p1]> d) in *.
  set (fs1 := <[p1 := content resp1]> (delete (tmp_path_of u1 out_dir resp1) fs))
    in *.
  assert (d1 !! SHA256.hexdigest (content resp2) = None) as Hd2'.
  { unfold d1. by rewrite lookup_insert_ne. }
  destruct (download_image_saves u2 out_dir resp2 d1 max2 e2 fs1)
    as (p2 & Hp2 & Hrun2); try done.
  assert (tmp_path_of u2 out_dir resp2 = tmp_path_of u1 out_dir resp1) as Htmp.
  { unfold tmp_path_of. by rewrite Hname. }
  rewrite Htmp in *.
  set (tmp := tmp_path_of u1 out_dir resp1) in *.
  (* the first path was free while the temporary file was there *)
  destruct (make_unique_path_spec (<[tmp := content resp1]> fs) out_dir
              (filename_of u1 resp1)) as (q1 & Hq1 & Hfree1 & _).
  rewrite Hp1 in Hq1. injection Hq1 as <-.
  assert (p1 ≠ tmp) as Hp1tmp.
  { intros ->. apply path_exists_false in Hfree1.
    by rewrite lookup_insert_eq in Hfree1. }
  (* the second path was free while the first file was there *)
  destruct (make_unique_path_spec (<[tmp := content resp2]> fs1) out_dir
              (filename_of u2 resp2)) as (q2 & Hq2 & Hfree2 & _).
  rewrite Hp2 in Hq2. injection Hq2 as <-.
  assert (p1 ≠ p2) as Hp12.
  { intros <-. apply path_exists_false in Hfree2.
    rewrite lookup_insert_ne in Hfree2 by done.
    unfold fs1 in Hfree2. by rewrite lookup_insert_eq in Hfree2. }
  exists p1, p2, fs1, (VDict d1). do 2 eexists.
  split; [exact Hrun1|]. split; [exact Hrun2|]. split; [done|].
  split; [|apply lookup_insert_eq].
  rewrite lookup_insert_ne, lookup_delete_ne by done.
  apply lookup_insert_eq.
Qed.

Lemma unique_path_avoids_collisions_witness :
  let resp1 := jpeg_response None [bytes_of "abc"] in
  let resp2 := jpeg_response None [bytes_of "abd"] in
  goes_through resp1 MAX_BYTES healthy
  ∧ goes_through resp2 MAX_BYTES healthy
  ∧ SHA256.hexdigest (content resp1) ≠ SHA256.hexdigest (content resp2)
  ∧ ∃ p1 p2 fs1 index1 fs2 index2,
      download_image a_jpg OUTPUT_DIR (Response resp1) (VDict ∅)
        MAX_BYTES healthy ∅
      = (Saved p1, fs1, index1)
      ∧ download_image a_jpg OUTPUT_DIR (Response resp2) index1
          MAX_BYTES healthy fs1
        = (Saved p2, fs2, index2)
      ∧ p1 ≠ p2
      ∧ fs2 !! p1 = Some (content resp1)
      ∧ fs2 !! p2 = Some (content resp2).
Proof.
  cbn zeta.
  assert (goes_through (jpeg_response None [bytes_of "abc"]) MAX_BYTES healthy)
    as H1.
  { repeat split; try by_evaluation. right. vm_compute. discriminate. }
  assert (goes_through (jpeg_response None [bytes_of "abd"]) MAX_BYTES healthy)
    as H2.
  { repeat split; try by_evaluation. right. vm_compute. discriminate. }
  assert (SHA256.hexdigest (content (jpeg_response None [bytes_of "abc"]))
          ≠ SHA256.hexdigest (content (jpeg_response None [bytes_of "abd"])))
    as H3 by (vm_compute; discriminate).
  split; [exact H1|]. split; [exact H2|]. split; [exact H3|].
  exact (proj2 unique_path_avoids_collisions a_jpg a_jpg OUTPUT_DIR
           (jpeg_response None [bytes_of "abc"])
           (jpeg_response None [bytes_of "abd"]) ∅ MAX_BYTES MAX_BYTES
           healthy healthy ∅ H1 H2 eq_refl (lookup_empty _) (lookup_empty _) H3).
Defined.

(** ** Extension inferred from the content type *)

Lemma allowed_type_cases (content_type : pystr) :
  allowed_type content_type = true →
  content_type = py "image/jpeg" ∨ content_type = py "image/png"
  ∨ content_type = py "image/gif" ∨ content_type = py "image/webp"
  ∨ content_type = py "image/svg+xml" ∨ content_type = py "image/bmp"
  ∨ content_type = py "image/tiff".
Proof.
  unfold allowed_type. intros [_ H%bool_decide_eq_true]%andb_true_iff.
  unfold ALLOWED_IMAGE_TYPES in H.
  rewrite !elem_of_union, !elem_of_singleton in H. tauto.
Qed.

(** C8: a content type that passed the allow-list check has an entry in
    the extension mapping, so [ext_from_content_type] returns that entry,
    which is not empty; a filename without extension gets it appended, and
    the name the routine goes on with is never the filename with [.img]
    put on. *)
Theorem img_fallback_unreachable (content_type filename : pystr) :
  allowed_type content_type = true →
  ∃ ext,
    mapping !! content_type = Some ext
    ∧ ext_from_content_type content_type = ext
    ∧ ext ≠ []
    ∧ with_extension filename content_type
      = (if str_empty (splitext filename).2 then filename ++ ext else filename)
    ∧ with_extension filename content_type ≠ filename ++ py ".img".
Proof.
  intros H.
  assert (∃ ext, mapping !! content_type = Some ext
                 ∧ ext_from_content_type content_type = ext
                 ∧ ext ≠ [] ∧ ext ≠ py ".img") as (ext & Hm & He & Hne & Himg).
  { destruct (allowed_type_cases _ H) as [->|[->|[->|[->|[->|[->| ->]]]]]];
      eexists; (split; [by vm_compute|]); (split; [by vm_compute|]);
      split; by vm_compute. }
  exists ext. do 3 (split; [done|]).
  unfold with_extension. rewrite He.
  destruct (str_empty (splitext filename).2).
  - destruct ext as [|c ext]; [done|]. cbn [str_empty].
    split; [done|]. intros Heq. by apply app_inv_head in Heq.
  - split; [done|]. intros Heq.
    apply (f_equal length) in Heq. rewrite length_app in Heq.
    vm_compute (length (py ".img")) in Heq. lia.
Qed.

Lemma img_fallback_unreachable_witness :
  allowed_type (py "image/svg+xml") = true
  ∧ ∃ ext,
      mapping !! py "image/svg+xml" = Some ext
      ∧ ext_from_content_type (py "image/svg+xml") = ext
      ∧ ext ≠ []
      ∧ with_extension (py "logo") (py "image/svg+xml")
        = (if str_empty (splitext (py "logo")).2 then py "logo" ++ ext
           else py "logo")
      ∧ with_extension (py "logo") (py "image/svg+xml") ≠ py "logo" ++ py ".img".
Proof.
  assert (allowed_type (py "image/svg+xml") = true) as H by by_evaluation.
  split; [exact H|].
  exact (img_fallback_unreachable (py "image/svg+xml") (py "logo") H).
Defined.

(** ** Boundary of the size checks *)

(** C10: both size checks are strict.  A declared-length rejection only
    comes with a header that reads as an integer above [max_bytes], and a
    size-exceeded abort only when the bytes written went above [max_bytes];
    a response that declares exactly [max_bytes] and carries exactly
    [max_bytes] bytes is saved when nothing else stands in the way. *)
Theorem size_checks_are_strict (u : url) (out_dir : pystr) (resp : response)
    (index : pyval) (max_bytes : Z) (e : env) (fs : filesystem) :
  let r := download_image u out_dir (Response resp) index max_bytes e fs in
  (∀ content_length m,
     r.1.1 = Failed (RejectedContentLength content_length m) →
     ∃ n, content_length_header resp = Some content_length
          ∧ py_int content_length = Some n ∧ max_bytes < n)
  ∧ (∀ m, r.1.1 = Failed (AbortedSizeExceeded m) →
          ∃ k, max_bytes < body_length (take k (body resp))
               ∧ body_length (take k (body resp)) ≤ body_length (body resp))
  ∧ (∀ content_length d,
       content_length_header resp = Some content_length →
       py_int content_length = Some max_bytes →
       body_length (body resp) = max_bytes →
       raise_for_status resp = false →
       allowed_type (response_content_type resp) = true →
       open_raises e = false → body_raises resp = false →
       replace_raises e = false →
       index = VDict d → d !! SHA256.hexdigest (content resp) = None →
       ∃ final_path fs' index', r = (Saved final_path, fs', index')).
Proof.
  cbn zeta.
  pose proof (finalize_results u out_dir (filename_of u resp)
                (tmp_path_of u out_dir resp) (response_content_type resp)
                index e (streamed (tmp_path_of u out_dir resp) fs (content resp)))
    as Hfin.
  split; [|split].
  - intros content_length m Hr.
    destruct (download_image_cases u out_dir resp index max_bytes e fs)
      as [(_ & E)|[(_ & _ & E)|[(_ & _ & Hl & E)|[(_ & _ & E)
         |[(_ & _ & _ & E)|[(_ & _ & _ & E)|(_ & _ & _ & E)]]]]]];
      rewrite E in Hr; cbn [fst snd] in Hr; try done.
    + injection Hr as <- <-. unfold declared_too_long in Hl.
      destruct (content_length_header resp) as [cl|]; [|done].
      destruct (str_empty cl); [done|].
      destruct (py_int cl) as [n|] eqn:Hn; [|done].
      exists n. apply Z.ltb_lt in Hl. by repeat split.
    + by rewrite Hr in Hfin.
  - intros m Hr.
    destruct (download_image_cases u out_dir resp index max_bytes e fs)
      as [(_ & E)|[(_ & _ & E)|[(_ & _ & _ & E)|[(_ & _ & E)
         |[(_ & _ & (k & _ & Hk) & E)|[(_ & _ & _ & E)|(_ & _ & _ & E)]]]]]];
      rewrite E in Hr; cbn [fst snd] in Hr; try done.
    + exists k. split; [done|]. unfold body_length.
      rewrite <- (take_drop k (body resp)) at 2.
      rewrite concat_app, length_app. lia.
    + by rewrite Hr in Hfin.
  - intros content_length d Hcl Hint Hlen Hs Ht Ho Hb Hr -> Hd.
    destruct (download_image_saves u out_dir resp d max_bytes e fs)
      as (p & _ & ->); try done; [|right; lia|by do 3 eexists].
    split; [done|]. split; [done|].
    unfold declared_too_long. rewrite Hcl, Hint, Z.ltb_irrefl.
    by destruct (str_empty content_length).
Qed.

Lemma size_checks_are_strict_witness :
  let resp := jpeg_response (Some (py "3")) [bytes_of "ab"; bytes_of "c"] in
  py_int (py "3") = Some 3
  ∧ body_length (body resp) = 3
  ∧ ∃ final_path fs' index',
      download_image a_jpg OUTPUT_DIR (Response resp) (VDict ∅) 3 healthy ∅
      = (Saved final_path, fs', index').
Proof.
  cbn zeta.
  assert (py_int (py "3") = Some 3) as Hint by by_evaluation.
  assert (allowed_type
            (response_content_type
               (jpeg_response (Some (py "3")) [bytes_of "ab"; bytes_of "c"]))
          = true) as Htype by by_evaluation.
  split; [exact Hint|]. split; [reflexivity|].
  exact (proj2 (proj2 (size_checks_are_strict a_jpg OUTPUT_DIR
           (jpeg_response (Some (py "3")) [bytes_of "ab"; bytes_of "c"])
           (VDict ∅) 3 healthy ∅)) (py "3") ∅
           eq_refl Hint eq_refl eq_refl Htype eq_refl eq_refl eq_refl eq_refl
           (lookup_empty _)).
Defined.

(** ** Where the sanitizer returns the empty string *)

(** C3: the placeholder is put in for an empty input only, before the
    decoding and the cut to the last path segment; an input whose last
    segment is empty comes out as the empty string.  A URL whose path ends
    in an encoded slash therefore gets the bare extension as its target
    filename. *)
Theorem sanitize_filename_empty_result :
  sanitize_filename (py "/") = []
  ∧ sanitize_filename (py "photos/") = []
  ∧ sanitize_filename (py "%2F") = []
  ∧ sanitize_filename [] = placeholder_name
  ∧ filename_of {| url_text := py "https://x.test/%2F"; url_path := py "/%2F" |}
      (jpeg_response None [bytes_of "abc"])
    = py ".jpg".
Proof. repeat split; by_evaluation. Qed.

(** What does hold of every output of the sanitizer: only characters of
    the class, at most 200 of them, no path separator. *)
Lemma sanitize_filename_charset (raw : pystr) :
  Forall (fun c => safe_char c = true) (sanitize_filename raw)
  ∧ (length (sanitize_filename raw) ≤ 200)%nat
  ∧ (sep ∉ sanitize_filename raw).
Proof.
  destruct (sanitize_filename_safe raw) as [Hsafe Hlen].
  split; [done|]. split; [done|]. by apply safe_no_sep.
Qed.

(** ** Exceptions that reach the caller *)

(** C4: with an index file that holds a JSON array, the call saves the file
    and then raises [TypeError] at the index update; with an index whose
    record for the digest has no [filename], it raises [KeyError] at the
    duplicate report. *)
Theorem download_image_raises_on_malformed_index :
  download_image a_jpg OUTPUT_DIR
    (Response (jpeg_response None [bytes_of "abc"]))
    (load_index index_that_is_a_list) MAX_BYTES healthy ∅
  = (Raised TypeError, {[ py "Fetched_Images/a.jpg" := bytes_of "abc" ]},
     VList [])
  ∧ (download_image a_jpg OUTPUT_DIR
       (Response (jpeg_response None [bytes_of "abc"]))
       (load_index index_of_records_without_filename) MAX_BYTES healthy ∅).1.1
    = Raised KeyError.
Proof. split; by_evaluation. Qed.

(** On such an index the operations on the index raise nothing: for every
    outcome the model has, the call ends as [Saved] or [Failed], and the
    index it hands back is again of that shape. *)
Lemma download_image_on_well_formed_index (u : url) (out_dir : pystr)
    (session : get_result) (index : pyval) (max_bytes : Z) (e : env)
    (fs : filesystem) :
  well_formed_index index →
  let r := download_image u out_dir session index max_bytes e fs in
  ((∃ p, r.1.1 = Saved p) ∨ (∃ why, r.1.1 = Failed why))
  ∧ well_formed_index r.2.
Proof.
  intros (d & -> & Hwf). cbn zeta.
  destruct session as [|resp]; [split; [right; by eexists | by exists d]|].
  destruct (download_image_cases u out_dir resp (VDict d) max_bytes e fs)
    as [(_ & E)|[(_ & _ & E)|[(_ & _ & _ & E)|[(_ & _ & E)
       |[(_ & _ & _ & E)|[(_ & _ & _ & E)|(_ & _ & _ & E)]]]]]];
    rewrite E; cbn [fst snd];
    try (split; [right; by eexists | by exists d]).
  unfold finalize, sha_hexdigest. cbn [py_contains st_sha streamed].
  destruct (d !! SHA256.hexdigest (content resp)) as [record|] eqn:Hd.
  - destruct (Hwf _ _ Hd) as (fields & -> & [name Hname]).
    cbn [py_getitem]. rewrite Hd. cbn [py_getitem py_get]. rewrite Hname.
    cbn [fst snd]. split; [right; by eexists | by exists d].
  - destruct (make_unique_path_returns
                (st_fs (streamed (tmp_path_of u out_dir resp) fs (content resp)))
                out_dir (filename_of u resp)) as [p ->].
    destruct (replace_raises e); cbn [py_setitem fst snd].
    + split; [right; by eexists | by exists d].
    + split; [left; by eexists|]. eexists. split; [done|].
      intros digest record [[_ <-]|[_ Hin]]%lookup_insert_Some; [|by eapply Hwf].
      eexists. split; [done|].
      by rewrite (proj1 (index_fields_lookup _ _ _ _ _)).
Qed.

(** ** Known answers for the hash *)

Example sha256_of_nothing :
  SHA256.hexdigest []
  = py "e3b0c44298fc1c149afbf4c8996fb92427ae41e4649b934ca495991b7852b855".
Proof. by vm_compute. Qed.

Example sha256_of_abc :
  SHA256.hexdigest (bytes_of "abc")
  = py "ba7816bf8f01cfea414140de5dae2223b00361a396177a9cb410ff61f20015ad".
Proof. by vm_compute. Qed.


(** * Further properties of the script *)

(** ** More on the sanitizer *)

Local Open Scope N_scope.

Lemma no_runb_spec (s : pystr) : no_runb s = true → ¬ has_underscore_run s.
Proof.
  intros H (front & back & ->). induction front as [|c front IH].
  - cbn [app no_runb] in H. rewrite !N.eqb_refl in H. done.
  - apply IH. cbn [app no_runb] in H.
    destruct (front ++ ch "_" :: ch "_" :: back) eqn:E; [by destruct front|].
    by apply andb_true_iff in H as [_ H].
Qed.

Lemma no_runb_complete (s : pystr) : ¬ has_underscore_run s → no_runb s = true.
Proof.
  induction s as [|a s IH]; intros H; [done|].
  cbn [no_runb]. destruct s as [|b s]; [done|].
  apply andb_true_iff. split.
  - apply negb_true_iff, andb_false_iff.
    destruct (N.eqb_spec a (ch "_")) as [->|]; [|by left].
    destruct (N.eqb_spec b (ch "_")) as [->|]; [|by right].
    destruct H. by exists [], s.
  - apply IH. intros (front & back & E). apply H.
    exists (a :: front), back. by rewrite E.
Qed.

(** What the collapsing pass returns has no run left, and does not open
    with an underscore when it started inside a run. *)
Lemma collapse_from_no_run (in_run : bool) (s : pystr) :
  no_runb (collapse_from in_run s) = true
  ∧ (in_run = true → hd_error (collapse_from in_run s) ≠ Some (ch "_")).
Proof.
  revert in_run. induction s as [|c s IH]; intros in_run; [done|].
  cbn [collapse_from].
  destruct (N.eqb_spec c (ch "_")) as [->|Hc].
  - destruct in_run.
    + apply IH.
    + split; [|done]. destruct (IH true) as [Hrun Hhd].
      cbn [no_runb]. destruct (collapse_from true s) as [|b r] eqn:E; [done|].
      rewrite Hrun, andb_true_r. apply negb_true_iff, andb_false_iff. right.
      apply N.eqb_neq. intros ->. by apply Hhd.
  - destruct (IH false) as [Hrun _]. split.
    + cbn [no_runb]. destruct (collapse_from false s) as [|b r] eqn:E; [done|].
      rewrite Hrun, andb_true_r. apply negb_true_iff, andb_false_iff. left.
      by apply N.eqb_neq.
    + intros _. cbn [hd_error]. congruence.
Qed.

Lemma no_runb_take (n : nat) (s : pystr) :
  no_runb s = true → no_runb (take n s) = true.
Proof.
  revert n. induction s as [|a s IH]; intros n H; [by destruct n|].
  destruct n as [|n]; [done|]. cbn [take].
  cbn [no_runb] in H. destruct s as [|b s]; [by destruct n|].
  apply andb_true_iff in H as [Hab Hs].
  specialize (IH n Hs). destruct n as [|n]; [done|].
  cbn [take no_runb] in *. by rewrite Hab, IH.
Qed.

(** The collapsing pass leaves a string without runs as it is. *)
Lemma collapse_from_clean (in_run : bool) (s : pystr) :
  no_runb s = true →
  (in_run = true → hd_error s ≠ Some (ch "_")) →
  collapse_from in_run s = s.
Proof.
  revert in_run. induction s as [|c s IH]; intros in_run Hrun Hhd; [done|].
  cbn [collapse_from].
  assert (no_runb s = true) as Hs.
  { cbn [no_runb] in Hrun. destruct s; [done|].
    by apply andb_true_iff in Hrun as [_ ?]. }
  destruct (N.eqb_spec c (ch "_")) as [->|Hc].
  - destruct in_run; [by destruct Hhd|].
    f_equal. apply IH; [done|]. intros _.
    cbn [no_runb] in Hrun. destruct s as [|b s]; [done|].
    apply andb_true_iff in Hrun as [Hab _].
    rewrite N.eqb_refl in Hab. cbn [hd_error]. intros [= ->].
    by rewrite N.eqb_refl in Hab.
  - f_equal. by apply IH.
Qed.

Lemma collapse_from_nil (s : pystr) : collapse_from false s = [] → s = [].
Proof.
  destruct s as [|c s]; [done|]. cbn [collapse_from].
  by destruct (c =? ch "_").
Qed.

Lemma rfind_absent (c : N) (s : pystr) : c ∉ s → rfind c s = (-1)%Z.
Proof.
  intros H. destruct (rfind_spec c s) as [[_ ?]|(k & _ & Hk & _)]; [done|].
  destruct H. by eapply list_elem_of_lookup_2.
Qed.

Lemma basename_relative (p : pystr) : sep ∉ p → basename p = p.
Proof. intros H. unfold basename. by rewrite rfind_absent. Qed.

Lemma contains_char_safe (s : pystr) : safe s → contains_char (ch "%") s = false.
Proof.
  unfold safe, contains_char. induction 1 as [|c s Hc _ IH]; [done|].
  cbn [existsb]. rewrite IH, orb_false_r.
  destruct (N.eqb_spec (ch "%") c) as [<-|]; [by vm_compute in Hc | done].
Qed.

Lemma replace_unsafe_clean (s : pystr) : safe s → replace_unsafe s = s.
Proof.
  unfold safe, replace_unsafe. induction 1 as [|c s Hc _ IH]; [done|].
  cbn [map]. by rewrite Hc, IH.
Qed.

Lemma sanitize_filename_of_clean (raw : pystr) :
  clean_name raw → sanitize_filename raw = raw.
Proof.
  intros (Hne & Hsafe & Hrun & Hlen). unfold sanitize_filename.
  destruct raw as [|c raw]; [done|]. cbn [str_empty].
  unfold unquote. rewrite contains_char_safe by done. cbn [negb].
  rewrite basename_relative by (by apply safe_no_sep).
  rewrite replace_unsafe_clean by done.
  unfold collapse_underscores.
  rewrite collapse_from_clean; [|by apply no_runb_complete|done].
  by apply take_ge.
Qed.

Lemma sanitize_filename_no_run (raw : pystr) :
  no_runb (sanitize_filename raw) = true.
Proof.
  unfold sanitize_filename, collapse_underscores.
  apply no_runb_take, collapse_from_no_run.
Qed.

(** X2: no output of the sanitizer has two underscores side by side. *)
Theorem sanitize_filename_collapses_underscores (raw : pystr) :
  ¬ has_underscore_run (sanitize_filename raw).
Proof. apply no_runb_spec, sanitize_filename_no_run. Qed.

(** X3: the sanitizer returns the empty string exactly for a non-empty
    input whose decoded last path segment is empty. *)
Theorem sanitize_filename_empty_iff (raw : pystr) :
  sanitize_filename raw = [] ↔ raw ≠ [] ∧ basename (unquote raw) = [].
Proof.
  destruct raw as [|c raw].
  - split; [by vm_compute | by intros [? _]].
  - unfold sanitize_filename. cbn [str_empty].
    set (segment := basename (unquote (c :: raw))).
    split.
    + intros H. split; [done|].
      destruct (collapse_underscores (replace_unsafe segment)) as [|x r] eqn:E;
        [|done].
      apply collapse_from_nil in E. by destruct segment.
    + by intros [_ ->].
Qed.

(** X4: a clean name (not empty, only characters of the class, no run of
    underscores, at most 200 long) goes through the sanitizer unchanged;
    every output that is not empty is clean, so sanitizing it again changes
    nothing. *)
Theorem sanitize_filename_idempotent (raw : pystr) :
  (clean_name raw → sanitize_filename raw = raw)
  ∧ (sanitize_filename raw ≠ [] →
     clean_name (sanitize_filename raw)
     ∧ sanitize_filename (sanitize_filename raw) = sanitize_filename raw).
Proof.
  split; [apply sanitize_filename_of_clean|].
  intros Hne.
  assert (clean_name (sanitize_filename raw)) as Hclean.
  { destruct (sanitize_filename_safe raw) as [Hsafe Hlen].
    repeat split; try done. apply no_runb_spec, sanitize_filename_no_run. }
  split; [done | by apply sanitize_filename_of_clean].
Qed.

Lemma sanitize_filename_idempotent_witness :
  clean_name (py "holiday_photo-1.jpg")
  ∧ sanitize_filename (py "holiday_photo-1.jpg") = py "holiday_photo-1.jpg"
  ∧ sanitize_filename (py "my%20holiday  photo.jpg") ≠ []
  ∧ sanitize_filename (sanitize_filename (py "my%20holiday  photo.jpg"))
    = sanitize_filename (py "my%20holiday  photo.jpg").
Proof.
  assert (clean_name (py "holiday_photo-1.jpg")) as H1.
  { split; [by vm_compute|]. split; [vm_compute; by repeat constructor|].
    split; [by apply no_runb_spec; vm_compute | vm_compute; lia]. }
  assert (sanitize_filename (py "my%20holiday  photo.jpg") ≠ []) as H2
    by (by vm_compute).
  split; [exact H1|].
  split; [exact (proj1 (sanitize_filename_idempotent _) H1)|].
  split; [exact H2|].
  exact (proj2 (proj2 (sanitize_filename_idempotent
                         (py "my%20holiday  photo.jpg")) H2)).
Defined.

(** ** More on [ext_from_content_type] *)

Lemma mapping_keys : dom mapping = ALLOWED_IMAGE_TYPES.
Proof. by_evaluation. Qed.

Lemma mapping_values_not_empty (content_type ext : pystr) :
  mapping !! content_type = Some ext → ext ≠ [].
Proof.
  unfold mapping. intros H%elem_of_list_to_map_2.
  repeat (apply elem_of_cons in H as [[= _ ->]|H]; [by vm_compute|]).
  by apply elem_of_nil in H.
Qed.

(** X5: [ext_from_content_type] returns an extension exactly when the
    media type of the header value (parameters cut off, stripped, lowered)
    is one of [ALLOWED_IMAGE_TYPES]; the keys of its mapping are the
    allow-list. *)
Theorem ext_from_content_type_known_iff (content_type : pystr) :
  ext_from_content_type content_type ≠ []
  ↔ media_type content_type ∈ ALLOWED_IMAGE_TYPES.
Proof.
  unfold ext_from_content_type. rewrite <- mapping_keys, elem_of_dom.
  destruct content_type as [|c content_type].
  - split; [done|]. by vm_compute; intros [? ?].
  - cbn [str_empty].
    destruct (mapping !! media_type (c :: content_type)) as [ext|] eqn:E;
      cbn [default]; unfold id.
    + split; [by eexists|]. intros _. by eapply mapping_values_not_empty.
    + split; [done | by intros [? ?]].
Qed.

(** ** What a call does to the directory and to the index *)

Local Open Scope Z_scope.

Lemma remove_if_exists_delete (p : pystr) (fs : filesystem) :
  remove_if_exists p fs = delete p fs.
Proof.
  unfold remove_if_exists, path_exists.
  destruct (fs !! p) eqn:E; [done|]. by rewrite delete_id.
Qed.

(** The three ways the last steps can go: the membership test on the
    index raises and the temporary file stays; the temporary file is
    removed and nothing else changes; or the temporary file is moved to a
    path that was free, after which the index is updated or, when it is no
    dict, the update raises. *)
Lemma finalize_cases (u : url) (out_dir filename tmp_path content_type : pystr)
    (index : pyval) (e : env) (fs : filesystem) (written : bytes) :
  let r := finalize u out_dir filename tmp_path content_type index e
             (streamed tmp_path fs written) in
  let digest := SHA256.hexdigest written in
  (∃ err, r = (Raised err, <[tmp_path := written]> fs, index)
          ∧ ∀ d, index ≠ VDict d)
  ∨ (is_cleanup_result r.1.1 ∧ r.1.2 = delete tmp_path fs ∧ r.2 = index)
  ∨ (∃ p, make_unique_path (<[tmp_path := written]> fs) out_dir filename = Some p
          ∧ r.1.2 = <[p := written]> (delete tmp_path fs)
          ∧ ((∃ d, index = VDict d ∧ d !! digest = None
                   ∧ r.1.1 = Saved p
                   ∧ r.2 = VDict (<[digest :=
                                      index_record p (url_text u) content_type
                                        (Z.of_nat (length written)) (clock e)]> d))
             ∨ (∃ err, r.1.1 = Raised err ∧ r.2 = index ∧ ∀ d, index ≠ VDict d))).
Proof.
  cbn zeta. unfold finalize, sha_hexdigest.
  cbn [st_sha st_fs st_total streamed].
  destruct (make_unique_path_returns (<[tmp_path := written]> fs) out_dir filename)
    as [p Hp].
  change (<[tmp_path := written]> fs)
    with (st_fs (streamed tmp_path fs written)).
  rewrite remove_if_exists_streamed.
  change (st_fs (streamed tmp_path fs written))
    with (<[tmp_path := written]> fs).
  assert (os_replace tmp_path p (<[tmp_path := written]> fs)
          = <[p := written]> (delete tmp_path fs)) as Hmove
    by apply (os_replace_streamed tmp_path p fs written).
  destruct index as [|b|z|m x|s|l|d]; cbn [py_contains].
  1-4: left; eexists; split; [reflexivity | done].
  - destruct (contains_str _ s).
    + right. left. cbn [py_getitem fst snd]. done.
    + rewrite Hp. destruct (replace_raises e).
      * right. left. cbn [fst snd]. done.
      * right. right. exists p. cbn [py_setitem fst snd].
        split; [done|]. split; [done|]. right. by eexists.
  - destruct (existsb _ l).
    + right. left. cbn [py_getitem fst snd]. done.
    + rewrite Hp. destruct (replace_raises e).
      * right. left. cbn [fst snd]. done.
      * right. right. exists p. cbn [py_setitem fst snd].
        split; [done|]. split; [done|]. right. by eexists.
  - destruct (d !! SHA256.hexdigest written) as [existing|] eqn:Hd.
    + right. left. cbn [py_getitem]. rewrite Hd.
      destruct (py_getitem existing (py "filename")); [done|].
      by destruct (py_get existing (py "url")).
    + rewrite Hp. destruct (replace_raises e).
      * right. left. cbn [fst snd]. done.
      * right. right. exists p. cbn [py_setitem fst snd].
        split; [done|]. split; [done|]. left. by exists d.
Qed.

(** The same for a whole call on a response. *)
Lemma download_image_effects (u : url) (out_dir : pystr) (resp : response)
    (index : pyval) (max_bytes : Z) (e : env) (fs : filesystem) :
  let r := download_image u out_dir (Response resp) index max_bytes e fs in
  let tmp_path := tmp_path_of u out_dir resp in
  (¬ passes_headers resp max_bytes ∧ ∃ why, r = (Failed why, fs, index))
  ∨ (passes_headers resp max_bytes ∧ not_saved r.1.1
     ∧ r.1.2 = delete tmp_path fs ∧ r.2 = index)
  ∨ (passes_headers resp max_bytes ∧ fits max_bytes resp
     ∧ (∃ err, r = (Raised err, <[tmp_path := content resp]> fs, index))
     ∧ ∀ d, index ≠ VDict d)
  ∨ (passes_headers resp max_bytes ∧ fits max_bytes resp
     ∧ ∃ p, make_unique_path (<[tmp_path := content resp]> fs) out_dir
              (filename_of u resp) = Some p
            ∧ r.1.2 = <[p := content resp]> (delete tmp_path fs)
            ∧ ((∃ d, index = VDict d
                     ∧ d !! SHA256.hexdigest (content resp) = None
                     ∧ r.1.1 = Saved p
                     ∧ r.2 = VDict (<[SHA256.hexdigest (content resp) :=
                                        saved_record u resp e p]> d))
               ∨ (∃ err, r.1.1 = Raised err ∧ r.2 = index
                         ∧ ∀ d, index ≠ VDict d))).
Proof.
  cbn zeta.
  destruct (download_image_cases u out_dir resp index max_bytes e fs)
    as [(Hs & E)|[(_ & Ht & E)|[(_ & _ & Hl & E)|[(Hh & _ & E)
       |[(Hh & Ho & Hover & E)|[(Hh & _ & _ & E)|(Hh & Ho & Hb & E)]]]]]];
    rewrite E; cbn [fst snd].
  - left. split; [|by eexists]. intros (? & _). congruence.
  - left. split; [|by eexists]. intros (_ & ? & _). congruence.
  - left. split; [|by eexists]. intros (_ & _ & ?). congruence.
  - right. left. rewrite remove_if_exists_delete. by split.
  - right. left. by split.
  - right. left. by split.
  - assert (fits max_bytes resp) as Hfit.
    { destruct (decide (content resp = [])) as [?|Hne]; [by left|].
      destruct (Z_le_gt_dec (body_length (body resp)) max_bytes) as [?|Hgt];
        [by right|].
      exfalso.
      destruct (stream_body_overflow max_bytes (tmp_path_of u out_dir resp) fs
                  (body resp) (body_raises resp) []) as [seen Hseen].
      { exists (length (body resp)). rewrite firstn_all.
        unfold body_length in *. fold (content resp) in *.
        destruct (content resp); [done|]. simpl in *. lia. }
      rewrite download_image_streaming, Hseen in E by done.
      pose proof (finalize_results u out_dir (filename_of u resp)
                    (tmp_path_of u out_dir resp) (response_content_type resp)
                    index e
                    (streamed (tmp_path_of u out_dir resp) fs (content resp)))
        as Hfin.
      by rewrite <- E in Hfin. }
    destruct (finalize_cases u out_dir (filename_of u resp)
                (tmp_path_of u out_dir resp) (response_content_type resp)
                index e fs (content resp))
      as [(err & Efin & Hnd)|[(Hc & Hfs & Hi)|(p & Hp & Hfs & Hrest)]].
    + right. right. left. do 2 (split; [done|]). split; [by exists err | done].
    + right. left. split; [done|]. split; [|done].
      destruct (finalize _ _ _ _ _ _ _ _).1.1 as [| [] | |]; done.
    + right. right. right. do 2 (split; [done|]). by exists p.
Qed.

Lemma unique_path_is_not_tmp (tmp_path out_dir filename p : pystr)
    (fs : filesystem) (written : bytes) :
  make_unique_path (<[tmp_path := written]> fs) out_dir filename = Some p →
  p ≠ tmp_path ∧ fs !! p = None.
Proof.
  intros Hp.
  destruct (make_unique_path_spec (<[tmp_path := written]> fs) out_dir filename)
    as (q & Hq & Hfree & _).
  rewrite Hp in Hq. injection Hq as <-.
  apply path_exists_false in Hfree.
  assert (p ≠ tmp_path) as Hne.
  { intros ->. by rewrite lookup_insert_eq in Hfree. }
  split; [done|]. by rewrite lookup_insert_ne in Hfree.
Qed.

(** X6: a call that does not get past the request, the status check, the
    content-type check or the declared-length check returns a failure and
    hands back the directory and the index exactly as it received them. *)
Theorem rejection_before_streaming_changes_nothing (u : url) (out_dir : pystr)
    (session : get_result) (index : pyval) (max_bytes : Z) (e : env)
    (fs : filesystem) :
  match session with
  | RequestException => True
  | Response resp => ¬ passes_headers resp max_bytes
  end →
  ∃ why, download_image u out_dir session index max_bytes e fs
         = (Failed why, fs, index).
Proof.
  destruct session as [|resp]; intros H; [by eexists|].
  destruct (download_image_effects u out_dir resp index max_bytes e fs)
    as [(_ & Hr)|[(? & _)|[(? & _)|(? & _)]]]; done.
Qed.

Lemma rejection_before_streaming_changes_nothing_witness :
  ¬ passes_headers
      (match answer_session (small_web (py "https://x.test/missing")) with
       | Response resp => resp
       | RequestException => html_response
       end) MAX_BYTES
  ∧ ∃ why,
      download_image a_jpg OUTPUT_DIR
        (answer_session (small_web (py "https://x.test/missing")))
        (VDict ∅) MAX_BYTES healthy {[ py "Fetched_Images/a.jpg" := bytes_of "abc" ]}
      = (Failed why, {[ py "Fetched_Images/a.jpg" := bytes_of "abc" ]}, VDict ∅).
Proof.
  assert (¬ passes_headers
            (match answer_session (small_web (py "https://x.test/missing")) with
             | Response resp => resp
             | RequestException => html_response
             end) MAX_BYTES) as H.
  { intros (Hs & _). vm_compute in Hs. discriminate. }
  split; [exact H|].
  exact (rejection_before_streaming_changes_nothing a_jpg OUTPUT_DIR
           (answer_session (small_web (py "https://x.test/missing")))
           (VDict ∅) MAX_BYTES healthy
           {[ py "Fetched_Images/a.jpg" := bytes_of "abc" ]} H).
Defined.



(** X8: a call never removes or rewrites a file other than the one at its
    temporary path, and the only path it can fill is the final path it
    chose, which was free: every other path holds after the call what it
    held before. *)
Theorem other_files_are_untouched (u : url) (out_dir : pystr) (resp : response)
    (index : pyval) (max_bytes : Z) (e : env) (fs : filesystem) (p : pystr) :
  let r := download_image u out_dir (Response resp) index max_bytes e fs in
  p ≠ tmp_path_of u out_dir resp →
  (∀ data, fs !! p = Some data → r.1.2 !! p = Some data)
  ∧ (fs !! p = None → r.1.2 !! p ≠ None →
     r.1.2 !! p = Some (content resp)
     ∧ (r.1.1 = Saved p ∨ ∃ err, r.1.1 = Raised err)).
Proof.
  cbn zeta. intros Hne.
  destruct (download_image_effects u out_dir resp index max_bytes e fs)
    as [(_ & why & ->)|[(_ & _ & -> & _)|[(_ & _ & (err & ->) & _)
       |(_ & _ & q & Hq & -> & Hrest)]]]; cbn [fst snd].
  - split; [done|]. intros ->. done.
  - rewrite lookup_delete_ne by done. split; [done|]. intros ->. done.
  - rewrite lookup_insert_ne by done. split; [done|]. intros ->. done.
  - apply unique_path_is_not_tmp in Hq as [Hqtmp Hqfree].
    destruct (decide (q = p)) as [->|Hqp].
    + rewrite lookup_insert_eq. split; [intros data; congruence|].
      intros _ _. split; [done|].
      destruct Hrest as [(d & _ & _ & -> & _)|(err & -> & _)];
        [by left | right; by eexists].
    + rewrite lookup_insert_ne, lookup_delete_ne by done.
      split; [done|]. intros ->. done.
Qed.

Lemma other_files_are_untouched_witness :
  let resp := jpeg_response None [bytes_of "abc"] in
  let fs : filesystem := {[ py "Fetched_Images/a.jpg" := bytes_of "first" ]} in
  py "Fetched_Images/a.jpg" ≠ tmp_path_of a_jpg OUTPUT_DIR resp
  ∧ (download_image a_jpg OUTPUT_DIR (Response resp) (VDict ∅) MAX_BYTES
       healthy fs).1.2 !! py "Fetched_Images/a.jpg" = Some (bytes_of "first").
Proof.
  cbn zeta.
  assert (py "Fetched_Images/a.jpg"
          ≠ tmp_path_of a_jpg OUTPUT_DIR (jpeg_response None [bytes_of "abc"]))
    as H by (by vm_compute).
  split; [exact H|].
  exact (proj1 (other_files_are_untouched a_jpg OUTPUT_DIR
                  (jpeg_response None [bytes_of "abc"]) (VDict ∅) MAX_BYTES
                  healthy {[ py "Fetched_Images/a.jpg" := bytes_of "first" ]}
                  (py "Fetched_Images/a.jpg") H)
           (bytes_of "first") (lookup_singleton_eq _ _)).
Defined.

(** X9: the index changes only when the call returns success, and an entry
    that was in a dict index is in the index handed back, unchanged. *)
Theorem index_only_grows (u : url) (out_dir : pystr) (session : get_result)
    (index : pyval) (max_bytes : Z) (e : env) (fs : filesystem) :
  let r := download_image u out_dir session index max_bytes e fs in
  (r.2 ≠ index → ∃ p, r.1.1 = Saved p)
  ∧ (∀ (d : gmap pystr pyval) digest record,
       index = VDict d → d !! digest = Some record →
       ∃ d' : gmap pystr pyval, r.2 = VDict d' ∧ d' !! digest = Some record).
Proof.
  cbn zeta. destruct session as [|resp].
  { split; [done|]. intros d digest record -> Hd. by exists d. }
  destruct (download_image_effects u out_dir resp index max_bytes e fs)
    as [(_ & why & ->)|[(_ & _ & _ & ->)|[(_ & _ & (err & ->) & _)
       |(_ & _ & q & _ & _ & [(d0 & -> & Hfree & -> & ->)|(err & _ & -> & _)])]]];
    cbn [fst snd]; try (split; [done|]; intros d digest record -> Hd; by exists d).
  split; [by eexists|].
  intros d digest record [= <-] Hd. eexists. split; [done|].
  rewrite lookup_insert_ne; [done|]. intros <-. congruence.
Qed.

(** X10: a file is saved only from a response whose type is allowed, whose
    declared length (if it reads as an integer) is within the limit, and
    whose body is empty or no longer than [max_bytes]; the file then holds
    the body. *)
Theorem saved_means_allowed_and_within_limit (u : url) (out_dir : pystr)
    (resp : response) (index : pyval) (max_bytes : Z) (e : env)
    (fs : filesystem) (p : pystr) :
  let r := download_image u out_dir (Response resp) index max_bytes e fs in
  r.1.1 = Saved p →
  response_content_type resp ∈ ALLOWED_IMAGE_TYPES
  ∧ declared_too_long resp max_bytes = false
  ∧ (content resp = [] ∨ Z.of_nat (length (content resp)) ≤ max_bytes)
  ∧ r.1.2 !! p = Some (content resp).
Proof.
  cbn zeta. intros Hr.
  destruct (download_image_effects u out_dir resp index max_bytes e fs)
    as [(_ & why & E)|[(_ & Hn & _)|[(_ & _ & (err & E) & _)
       |((_ & Ht & Hl) & Hfit & q & _ & Hfs & Hrest)]]].
  - by rewrite E in Hr.
  - by rewrite Hr in Hn.
  - by rewrite E in Hr.
  - assert (q = p) as ->.
    { destruct Hrest as [(d & _ & _ & Hq & _)|(err & Hq & _)]; congruence. }
    unfold allowed_type in Ht.
    apply andb_true_iff in Ht as [_ Ht%bool_decide_eq_true].
    do 3 (split; [done|]). rewrite Hfs. apply lookup_insert_eq.
Qed.

Lemma saved_means_allowed_and_within_limit_witness :
  let resp := jpeg_response (Some (py "3")) [bytes_of "ab"; bytes_of "c"] in
  (download_image a_jpg OUTPUT_DIR (Response resp) (VDict ∅) 3 healthy ∅).1.1
    = Saved (py "Fetched_Images/a.jpg")
  ∧ response_content_type resp ∈ ALLOWED_IMAGE_TYPES
  ∧ declared_too_long resp 3 = false
  ∧ (content resp = [] ∨ Z.of_nat (length (content resp)) ≤ 3)
  ∧ (download_image a_jpg OUTPUT_DIR (Response resp) (VDict ∅) 3 healthy ∅).1.2
      !! py "Fetched_Images/a.jpg" = Some (content resp).
Proof.
  cbn zeta.
  assert ((download_image a_jpg OUTPUT_DIR
             (Response (jpeg_response (Some (py "3")) [bytes_of "ab"; bytes_of "c"]))
             (VDict ∅) 3 healthy ∅).1.1
          = Saved (py "Fetched_Images/a.jpg")) as H by by_evaluation.
  split; [exact H|].
  exact (saved_means_allowed_and_within_limit a_jpg OUTPUT_DIR
           (jpeg_response (Some (py "3")) [bytes_of "ab"; bytes_of "c"])
           (VDict ∅) 3 healthy ∅ (py "Fetched_Images/a.jpg") H).
Defined.

(** X11: how the transport cuts the body into chunks does not matter: two
    responses that differ only in the chunking of the same bytes give the
    same result, the same directory and the same index. *)
Theorem chunking_does_not_matter (u : url) (out_dir : pystr) (resp : response)
    (chunks : list bytes) (index : pyval) (max_bytes : Z) (e : env)
    (fs : filesystem) :
  concat chunks = content resp →
  download_image u out_dir (Response (with_body resp chunks)) index max_bytes e fs
  = download_image u out_dir (Response resp) index max_bytes e fs.
Proof.
  intros Hsame.
  destruct (download_image_cases u out_dir resp index max_bytes e fs)
    as [(Hs & E)|[(Hs & Ht & E)|[(Hs & Ht & Hl & E)|[((Hs & Ht & Hl) & Ho & E)
       |[(Hh & Ho & _ & E)|[(Hh & Ho & _ & E)|(Hh & Ho & _ & E)]]]]]].
  1-4: rewrite E; unfold download_image;
       change (raise_for_status (with_body resp chunks))
         with (raise_for_status resp);
       change (response_content_type (with_body resp chunks))
         with (response_content_type resp);
       change (declared_too_long (with_body resp chunks) max_bytes)
         with (declared_too_long resp max_bytes);
       rewrite Hs; try rewrite Ht; cbn [negb]; try rewrite Hl; try rewrite Ho;
       done.
  all: clear E;
    assert (passes_headers (with_body resp chunks) max_bytes) as Hh' by exact Hh;
    rewrite !download_image_streaming by done;
    change (tmp_path_of u out_dir (with_body resp chunks))
      with (tmp_path_of u out_dir resp);
    change (filename_of u (with_body resp chunks)) with (filename_of u resp);
    change (response_content_type (with_body resp chunks))
      with (response_content_type resp);
    change (body (with_body resp chunks)) with chunks;
    change (body_raises (with_body resp chunks)) with (body_raises resp);
    (destruct (decide (content resp = [])) as [Hnil|Hne];
     [|destruct (Z_le_gt_dec (body_length (body resp)) max_bytes) as [Hle|Hgt]]).
  all: try (rewrite !stream_body_within, Hsame;
            [done | by left | left; by rewrite Hsame]).
  all: try (rewrite !stream_body_within, Hsame;
            [done | by right
            | right; unfold body_length in *; rewrite Hsame; exact Hle]).
  all: destruct (stream_body_overflow max_bytes (tmp_path_of u out_dir resp) fs
                   (body resp) (body_raises resp) []) as [seen1 ->];
    [exists (length (body resp)); rewrite firstn_all;
     unfold body_length in *; fold (content resp) in *;
     destruct (content resp); [done | simpl in *; lia]|];
    destruct (stream_body_overflow max_bytes (tmp_path_of u out_dir resp) fs
                chunks (body_raises resp) []) as [seen2 ->];
    [exists (length chunks); rewrite firstn_all;
     unfold body_length in *; fold (content resp) in *; rewrite Hsame;
     destruct (content resp); [done | simpl in *; lia]|];
    unfold streamed; cbn [st_fs]; by rewrite !delete_insert_eq.
Qed.

Lemma chunking_does_not_matter_witness :
  let resp := jpeg_response None [bytes_of "ab"; bytes_of "cd"] in
  concat [bytes_of "a"; bytes_of "bcd"] = content resp
  ∧ download_image a_jpg OUTPUT_DIR
      (Response (with_body resp [bytes_of "a"; bytes_of "bcd"]))
      (VDict ∅) MAX_BYTES healthy ∅
    = download_image a_jpg OUTPUT_DIR (Response resp) (VDict ∅) MAX_BYTES
        healthy ∅.
Proof.
  cbn zeta. split; [reflexivity|].
  exact (chunking_does_not_matter a_jpg OUTPUT_DIR
           (jpeg_response None [bytes_of "ab"; bytes_of "cd"])
           [bytes_of "a"; bytes_of "bcd"] (VDict ∅) MAX_BYTES healthy ∅ eq_refl).
Defined.

(** ** Where files are saved *)

Lemma uint_digits_safe (d : Decimal.uint) :
  safe (py (NilEmpty.string_of_uint d)).
Proof.
  unfold safe, py.
  induction d; cbn [NilEmpty.string_of_uint list_ascii_of_string map];
    by constructor.
Qed.

Lemma str_of_nat_safe (i : nat) : safe (str_of_nat i).
Proof. apply uint_digits_safe. Qed.

Lemma basename_app_sep (a b : pystr) :
  sep ∉ b → basename (a ++ sep :: b) = b.
Proof.
  intros Hb. unfold basename, slice_from.
  destruct (rfind_spec sep (a ++ sep :: b)) as [[Hn _]|(k & -> & Hk & Hd)].
  { destruct Hn. apply elem_of_app. right. apply elem_of_cons. by left. }
  replace (Z.to_nat (Z.of_nat k + 1)) with (S k) by lia.
  destruct (Nat.lt_trichotomy k (length a)) as [Hlt|[->|Hgt]].
  - destruct Hd. rewrite drop_app_le by lia.
    apply elem_of_app. right. apply elem_of_cons. by left.
  - rewrite drop_app_ge by lia.
    replace (S (length a) - length a)%nat with 1%nat by lia. done.
  - rewrite lookup_app_r in Hk by lia.
    destruct (k - length a)%nat as [|j] eqn:E; [lia|].
    cbn in Hk. destruct Hb. by eapply list_elem_of_lookup_2.
Qed.

Lemma endswith_sep (a : pystr) :
  endswith [sep] a = true → ∃ front, a = front ++ [sep].
Proof.
  unfold endswith. cbn [rev app]. intros H.
  destruct (rev a) as [|c r] eqn:E; [done|].
  cbn [startswith] in H. apply andb_true_iff in H as [Hc _].
  apply N.eqb_eq in Hc as <-.
  exists (rev r). rewrite <- (rev_involutive a), E. done.
Qed.

Lemma basename_join (directory name : pystr) :
  sep ∉ name → basename (join_prefix directory ++ name) = name.
Proof.
  intros Hn. unfold join_prefix.
  destruct directory as [|c directory]; [by apply basename_relative|].
  cbn [str_empty orb].
  destruct (endswith [sep] (c :: directory)) eqn:E.
  - apply endswith_sep in E as [front ->].
    rewrite <- app_assoc. by apply basename_app_sep.
  - rewrite <- app_assoc. by apply basename_app_sep.
Qed.


(** A bare name goes to a path right under the directory: the directory,
    a separator when it needs one, and a bare name with the number, if
    any, put in. *)
Lemma make_unique_path_bare_name (fs : filesystem) (directory filename p : pystr) :
  safe filename →
  make_unique_path fs directory filename = Some p →
  ∃ name, safe name ∧ p = path_join directory name
          ∧ p = join_prefix directory ++ name ∧ basename p = name.
Proof.
  intros Hsafe Hp.
  destruct (make_unique_path_spec fs directory filename)
    as (q & Hq & _ & Hsplit & Hshape).
  rewrite Hp in Hq. injection Hq as <-.
  assert (∃ name, safe name ∧ p = path_join directory name) as (name & Hname & ->).
  { destruct (path_exists fs (path_join directory filename)).
    - destruct Hshape as (i & _ & -> & _). eexists. split; [|done].
      unfold safe in *. rewrite <- Hsplit in Hsafe.
      apply Forall_app in Hsafe as [Hbase Hext].
      repeat (apply Forall_app; split); try done.
      + vm_compute. by repeat constructor.
      + apply str_of_nat_safe.
    - by exists filename. }
  exists name. split; [done|]. split; [done|].
  rewrite path_join_relative by (by apply startswith_sep_safe).
  split; [done|]. by apply basename_join, safe_no_sep.
Qed.

(** X12: a saved file lies right under the output directory: the returned
    path is the directory joined with a bare name made of characters of the
    class [[A-Za-z0-9._-]] only, whatever the URL and the headers were; that
    name is the one the index records, and joining it to the directory
    gives the path back. *)
Theorem saved_path_is_inside_output_dir (u : url) (out_dir : pystr)
    (session : get_result) (index : pyval) (max_bytes : Z) (e : env)
    (fs fs' : filesystem) (p : pystr) (index' : pyval) :
  download_image u out_dir session index max_bytes e fs = (Saved p, fs', index') →
  ∃ name,
    Forall (fun c => safe_char c = true) name
    ∧ (sep ∉ name)
    ∧ p = join_prefix out_dir ++ name
    ∧ basename p = name
    ∧ path_join out_dir (basename p) = p.
Proof.
  intros H.
  apply download_image_saved_inv in H
    as (resp & d & -> & -> & _ & _ & Hp & _ & _).
  apply make_unique_path_bare_name in Hp
    as (name & Hname & Hjoin & Hprefix & Hbase);
    [|apply target_filename_safe].
  exists name. split; [done|]. split; [by apply safe_no_sep|].
  split; [done|]. split; [done|]. by rewrite Hbase.
Qed.

Lemma saved_path_is_inside_output_dir_witness :
  let evil := {| status_code := 200;
                 content_type_header := Some (py "image/png");
                 content_length_header := None;
                 content_disposition_header :=
                   Some (py "attachment; filename=../../etc/passwd");
                 body := [bytes_of "abc"];
                 body_raises := false |} in
  download_image a_jpg OUTPUT_DIR (Response evil) (VDict ∅) MAX_BYTES healthy ∅
  = (Saved (py "Fetched_Images/passwd.png"),
     {[ py "Fetched_Images/passwd.png" := bytes_of "abc" ]},
     VDict {[ SHA256.hexdigest (bytes_of "abc") :=
                index_record (py "Fetched_Images/passwd.png") (url_text a_jpg)
                  (py "image/png") 3 (clock healthy) ]})
  ∧ ∃ name,
      Forall (fun c => safe_char c = true) name
      ∧ (sep ∉ name)
      ∧ py "Fetched_Images/passwd.png" = join_prefix OUTPUT_DIR ++ name
      ∧ basename (py "Fetched_Images/passwd.png") = name
      ∧ path_join OUTPUT_DIR (basename (py "Fetched_Images/passwd.png"))
        = py "Fetched_Images/passwd.png".
Proof.
  cbn zeta.
  assert (download_image a_jpg OUTPUT_DIR
            (Response {| status_code := 200;
                         content_type_header := Some (py "image/png");
                         content_length_header := None;
                         content_disposition_header :=
                           Some (py "attachment; filename=../../etc/passwd");
                         body := [bytes_of "abc"];
                         body_raises := false |})
            (VDict ∅) MAX_BYTES healthy ∅
          = (Saved (py "Fetched_Images/passwd.png"),
             {[ py "Fetched_Images/passwd.png" := bytes_of "abc" ]},
             VDict {[ SHA256.hexdigest (bytes_of "abc") :=
                        index_record (py "Fetched_Images/passwd.png")
                          (url_text a_jpg) (py "image/png") 3 (clock healthy) ]}))
    as H by by_evaluation.
  split; [exact H|].
  exact (saved_path_is_inside_output_dir _ _ _ _ _ _ _ _ _ _ H).
Defined.

Lemma index_describes_well_formed (out_dir : pystr) (fs : filesystem)
    (index : pyval) :
  index_describes out_dir fs index → well_formed_index index.
Proof.
  intros (d & -> & Hd). exists d. split; [done|].
  intros digest record Hr.
  destruct (Hd _ _ Hr) as (fields & name & data & -> & Hname & _).
  exists fields. by rewrite Hname.
Qed.

(** X13: when every record of the index names a file of the directory whose
    bytes hash to its key, and no file sits at the temporary path of the
    call, the same holds of the index and directory the call hands back:
    a new record comes only with its file, and no file a record names is
    removed or rewritten. *)
Theorem index_keeps_describing_directory (u : url) (out_dir : pystr)
    (resp : response) (index : pyval) (max_bytes : Z) (e : env)
    (fs : filesystem) :
  let r := download_image u out_dir (Response resp) index max_bytes e fs in
  index_describes out_dir fs index →
  fs !! tmp_path_of u out_dir resp = None →
  index_describes out_dir r.1.2 r.2.
Proof.
  cbn zeta. intros Hdesc Htmp.
  destruct Hdesc as (d & -> & Hd).
  pose proof (download_image_saved_inv u out_dir (Response resp) (VDict d)
                max_bytes e fs) as Hinv.
  destruct (download_image_effects u out_dir resp (VDict d) max_bytes e fs)
    as [(_ & why & ->)|[(_ & _ & Hfs & Hi)|[(_ & _ & _ & Hnd)
       |(_ & _ & q & Hq & Hfs & [(d0 & [= <-] & Hfree & Hr & Hi)|(err & _ & _ & Hnd)])]]];
    try (by destruct (Hnd d)).
  - by exists d.
  - rewrite Hfs, Hi, delete_id by done. by exists d.
  - rewrite Hfs, Hi, delete_id by done.
    pose proof Hq as Hq'. apply unique_path_is_not_tmp in Hq' as [_ Hqfree].
    apply make_unique_path_bare_name in Hq
      as (name & Hname & Hjoin & _ & Hbase); [|apply target_filename_safe].
    eexists. split; [done|].
    intros digest record [[<- <-]|[Hne Hin]]%lookup_insert_Some.
    + exists (index_fields q (url_text u) (response_content_type resp)
                (Z.of_nat (length (content resp))) (clock e)),
             name, (content resp).
      split; [done|].
      split; [by rewrite (proj1 (index_fields_lookup _ _ _ _ _)), Hbase|].
      split; [|done]. rewrite <- Hjoin. apply lookup_insert_eq.
    + destruct (Hd _ _ Hin) as (fields & name0 & data & -> & Hn0 & Hfile & Hhash).
      exists fields, name0, data. do 2 (split; [done|]). split; [|done].
      rewrite lookup_insert_ne; [done|]. intros Heq. congruence.
Qed.

Lemma index_keeps_describing_directory_witness :
  let fs : filesystem := {[ py "Fetched_Images/a.jpg" := bytes_of "abc" ]} in
  let index :=
    VDict {[ SHA256.hexdigest (bytes_of "abc") :=
               index_record (py "Fetched_Images/a.jpg") (url_text a_jpg)
                 (py "image/jpeg") 3 (clock healthy) ]} in
  let r := download_image a_jpg OUTPUT_DIR
             (Response (jpeg_response None [bytes_of "abd"])) index
             MAX_BYTES healthy fs in
  index_describes OUTPUT_DIR fs index
  ∧ fs !! tmp_path_of a_jpg OUTPUT_DIR (jpeg_response None [bytes_of "abd"]) = None
  ∧ index_describes OUTPUT_DIR r.1.2 r.2.
Proof.
  cbn zeta.
  assert (index_describes OUTPUT_DIR
            {[ py "Fetched_Images/a.jpg" := bytes_of "abc" ]}
            (VDict {[ SHA256.hexdigest (bytes_of "abc") :=
                        index_record (py "Fetched_Images/a.jpg") (url_text a_jpg)
                          (py "image/jpeg") 3 (clock healthy) ]})) as H1.
  { eexists. split; [done|].
    intros digest record [<- <-]%lookup_singleton_Some.
    eexists _, (py "a.jpg"), (bytes_of "abc").
    split; [done|]. split; [by_evaluation|]. split; by_evaluation. }
  assert (({[ py "Fetched_Images/a.jpg" := bytes_of "abc" ]} : filesystem)
            !! tmp_path_of a_jpg OUTPUT_DIR (jpeg_response None [bytes_of "abd"])
          = None) as H2 by by_evaluation.
  split; [exact H1|]. split; [exact H2|].
  exact (index_keeps_describing_directory a_jpg OUTPUT_DIR
           (jpeg_response None [bytes_of "abd"]) _ MAX_BYTES healthy _ H1 H2).
Defined.

(** ** [gather_urls] *)

#[local] Set Warnings "-clear-no-such-hyp".

Lemma dedup_from_elem (seen : gset pystr) (urls : list pystr) (x : pystr) :
  x ∈ dedup_from seen urls ↔ x ∈ urls ∧ x ∉ seen.
Proof.
  revert seen. induction urls as [|u urls IH]; intros seen; cbn [dedup_from].
  - split; [by intros ?%elem_of_nil | by intros [?%elem_of_nil _]].
  - case_bool_decide as Hu.
    + rewrite IH, elem_of_cons. split; [tauto|].
      intros [[->|?] ?]; tauto.
    + rewrite !elem_of_cons, IH. split.
      * intros [->|[? ?]]; [tauto|]. split; [tauto | set_solver].
      * intros [[->|?] ?]; [tauto|].
        destruct (decide (x = u)) as [->|]; [tauto|]. right. set_solver.
Qed.

Lemma dedup_from_NoDup (seen : gset pystr) (urls : list pystr) :
  NoDup (dedup_from seen urls).
Proof.
  revert seen. induction urls as [|u urls IH]; intros seen; cbn [dedup_from].
  - constructor.
  - case_bool_decide; [apply IH|]. constructor; [|apply IH].
    rewrite dedup_from_elem. set_solver.
Qed.

Lemma dedup_from_app (seen : gset pystr) (front back : list pystr) :
  dedup_from seen (front ++ back)
  = dedup_from seen front ++ dedup_from (list_to_set front ∪ seen) back.
Proof.
  revert seen. induction front as [|u front IH]; intros seen;
    cbn [dedup_from app list_to_set].
  - by rewrite (left_id_L ∅ (∪)).
  - case_bool_decide as Hu.
    + rewrite IH. do 2 f_equal. set_solver.
    + rewrite IH. cbn [app]. do 3 f_equal. set_solver.
Qed.

(** X14: [gather_urls] never returns a URL twice.  When the command line
    or the file gives URLs, the result has exactly the URLs given, each
    once, at the place of its first occurrence (the result for a prefix of
    what is given is a prefix of the result), and the prompt plays no
    part. *)
Theorem gather_urls_deduplicates (a : args) (w : world) :
  NoDup (gather_urls a w)
  ∧ (given_urls a w ≠ [] →
     (∀ x, x ∈ gather_urls a w ↔ x ∈ given_urls a w)
     ∧ (∀ front back, given_urls a w = front ++ back →
          ∃ rest, gather_urls a w = dedup_from ∅ front ++ rest)
     ∧ ∀ line, gather_urls a w
               = gather_urls a {| read_lines := read_lines w; typed := line;
                                  web := web w; json_load := json_load w;
                                  json_dump := json_dump w |}).
Proof.
  unfold gather_urls. split.
  - destruct (given_urls a w); [|apply dedup_from_NoDup].
    destruct (str_empty _); [constructor | apply dedup_from_NoDup].
  - intros Hgiven.
    assert (∀ line, given_urls a {| read_lines := read_lines w; typed := line;
                                    web := web w; json_load := json_load w;
                                    json_dump := json_dump w |}
                    = given_urls a w) as Hsame by done.
    split; [|split].
    + intros x. destruct (given_urls a w) as [|u urls] eqn:E; [done|].
      rewrite dedup_from_elem. set_solver.
    + intros front back Hcut.
      destruct (given_urls a w) as [|u urls] eqn:E; [done|].
      rewrite Hcut, dedup_from_app. by eexists.
    + intros line. rewrite Hsame.
      by destruct (given_urls a w) as [|u urls] eqn:E.
Qed.

Lemma gather_urls_deduplicates_witness :
  given_urls small_args small_world ≠ []
  ∧ given_urls small_args small_world
    = [ py "https://x.test/a.jpg"; py "https://x.test/b.png";
        py "https://x.test/a.jpg" ]
  ∧ (∀ x, x ∈ gather_urls small_args small_world
          ↔ x ∈ given_urls small_args small_world)
  ∧ gather_urls small_args small_world
    = [ py "https://x.test/a.jpg"; py "https://x.test/b.png" ].
Proof.
  assert (given_urls small_args small_world ≠ []) as H by (by vm_compute).
  split; [exact H|]. split; [by_evaluation|].
  split; [|by_evaluation].
  exact (proj1 (proj2 (gather_urls_deduplicates small_args small_world) H)).
Defined.

Lemma urls_of_lines_elem (lines : list pystr) (x : pystr) :
  x ∈ urls_of_lines lines
  ↔ ∃ ln, ln ∈ lines ∧ x = strip ln ∧ x ≠ []
          ∧ startswith (py "#") x = false.
Proof.
  induction lines as [|ln lines IH]; cbn [urls_of_lines].
  - split; [by intros ?%elem_of_nil | by intros (? & ?%elem_of_nil & _)].
  - destruct (negb (str_empty (strip ln))
              && negb (startswith (py "#") (strip ln))) eqn:E.
    + apply andb_true_iff in E as [He Hc].
      apply negb_true_iff in He, Hc.
      rewrite elem_of_cons, IH. split.
      * intros [->|(l & Hl & ?)].
        -- exists ln. split; [by left|]. split; [done|].
           split; [by destruct (strip ln) | done].
        -- exists l. split; [by right | done].
      * intros (l & [->|Hl]%elem_of_cons & Hx); [left; tauto|].
        right. by exists l.
    + rewrite IH. split.
      * intros (l & Hl & ?). exists l. split; [by right | done].
      * intros (l & [->|Hl]%elem_of_cons & -> & Hne & Hc); [|by exists l].
        apply andb_false_iff in E as [E|E]; apply negb_false_iff in E.
        -- by destruct (strip ln).
        -- congruence.
Qed.

(** X15: with no URL on the command line and a URL file that yields at
    least one URL, the URLs gathered are exactly the lines of the file,
    stripped, that are neither blank nor comments opening with [#]. *)
Theorem gather_urls_reads_the_file (a : args) (w : world) (file : pystr)
    (lines : list pystr) :
  arg_urls a = None →
  arg_file a = Some file →
  file ≠ [] →
  read_lines w file = Some lines →
  urls_of_lines lines ≠ [] →
  ∀ x, x ∈ gather_urls a w
       ↔ ∃ ln, ln ∈ lines ∧ x = strip ln ∧ x ≠ []
               ∧ startswith (py "#") x = false.
Proof.
  intros Hu Hf Hne Hr Hsome x.
  assert (given_urls a w = urls_of_lines lines) as Hgiven.
  { unfold given_urls. rewrite Hu, Hf, Hr. by destruct file. }
  unfold gather_urls. rewrite Hgiven.
  destruct (urls_of_lines lines) as [|u urls] eqn:E; [done|].
  rewrite <- E, dedup_from_elem, urls_of_lines_elem. set_solver.
Qed.

Lemma gather_urls_reads_the_file_witness :
  arg_urls small_args = None
  ∧ arg_file small_args = Some (py "urls.txt")
  ∧ ∀ x, x ∈ gather_urls small_args small_world
         ↔ ∃ ln, ln ∈ [ py "# images"; py ""; py " https://x.test/a.jpg ";
                        py "https://x.test/b.png"; py "https://x.test/a.jpg" ]
                 ∧ x = strip ln ∧ x ≠ [] ∧ startswith (py "#") x = false.
Proof.
  split; [reflexivity|]. split; [reflexivity|].
  apply (gather_urls_reads_the_file small_args small_world (py "urls.txt")).
  - reflexivity.
  - reflexivity.
  - by vm_compute.
  - by_evaluation.
  - by vm_compute.
Defined.

(** The pieces [re.split] cuts are free of separators and are parts of
    the string, in one piece each. *)
Lemma split_runs_pieces (is_sep : N → bool) (after_sep : bool) (s : pystr) :
  Forall (fun piece => Forall (fun c => is_sep c = false) piece
                       ∧ ∃ front back, s = front ++ piece ++ back)
         (split_runs is_sep after_sep s)
  ∧ (after_sep = false →
     ∃ piece pieces back, split_runs is_sep after_sep s = piece :: pieces
                          ∧ s = piece ++ back).
Proof.
  revert after_sep. induction s as [|c s IH]; intros after_sep.
  - cbn [split_runs]. split.
    + constructor; [|constructor]. split; [constructor|]. by exists [], [].
    + intros _. by exists [], [], [].
  - cbn [split_runs]. destruct (is_sep c) eqn:Hc.
    + assert (Forall (fun piece => Forall (fun c => is_sep c = false) piece
                                   ∧ ∃ front back, c :: s = front ++ piece ++ back)
                     (split_runs is_sep true s)) as Htail.
      { destruct (IH true) as [H _]. eapply Forall_impl; [exact H|].
        intros piece [Hp (front & back & ->)]. split; [done|].
        by exists (c :: front), back. }
      destruct after_sep.
      * split; [done | done].
      * split.
        -- constructor; [|done]. split; [constructor|]. by exists [], (c :: s).
        -- intros _. by exists [], (split_runs is_sep true s), (c :: s).
    + destruct (IH false) as [Hall Hhead].
      destruct (Hhead eq_refl) as (piece & pieces & back & E & ->).
      rewrite E in *. apply Forall_cons in Hall as [[Hp _] Hrest].
      split.
      * constructor.
        -- split; [by constructor|]. by exists [], back.
        -- eapply Forall_impl; [exact Hrest|].
           intros q [Hq (front & back' & Heq)]. split; [done|].
           exists (c :: front), back'. by rewrite Heq.
      * intros _. by exists (c :: piece), pieces, back.
Qed.

(** X16: when neither the command line nor the file gives a URL, the
    typed line is used: every URL gathered from it is a non-empty piece of
    the stripped line, in one piece, with no comma and no whitespace in it,
    and none comes twice; a blank line gives no URL. *)
Theorem gather_urls_splits_the_typed_line (a : args) (w : world) :
  given_urls a w = [] →
  NoDup (gather_urls a w)
  ∧ (strip (typed w) = [] → gather_urls a w = [])
  ∧ ∀ x, x ∈ gather_urls a w →
         x ≠ []
         ∧ Forall (fun c => c ≠ ch "," ∧ isspace c = false) x
         ∧ ∃ front back, strip (typed w) = front ++ x ++ back.
Proof.
  intros Hgiven. unfold gather_urls. rewrite Hgiven.
  destruct (strip (typed w)) as [|c raw] eqn:E; cbn [str_empty].
  - split; [constructor|]. split; [done|]. by intros x ?%elem_of_nil.
  - split; [apply dedup_from_NoDup|]. split; [done|].
    intros x [Hx _]%dedup_from_elem.
    apply list_elem_of_In, filter_In in Hx as [Hx Hne].
    apply list_elem_of_In in Hx.
    destruct (split_runs_pieces comma_or_space false (c :: raw)) as [Hall _].
    rewrite Forall_forall in Hall. destruct (Hall _ Hx) as [Hfree Hpart].
    split; [by destruct x|]. split; [|done].
    eapply Forall_impl; [exact Hfree|]. intros k Hk.
    unfold comma_or_space in Hk. apply orb_false_iff in Hk as [Hk ?].
    split; [by apply N.eqb_neq | done].
Qed.

Lemma gather_urls_splits_the_typed_line_witness :
  let a := {| arg_urls := None; arg_file := None; arg_out := OUTPUT_DIR;
              arg_max := MAX_BYTES; arg_no_index := false |} in
  given_urls a small_world = []
  ∧ gather_urls a small_world
    = [ py "https://x.test/c.gif"; py "https://x.test/a.jpg" ]
  ∧ ∀ x, x ∈ gather_urls a small_world →
         x ≠ []
         ∧ Forall (fun c => c ≠ ch "," ∧ isspace c = false) x
         ∧ ∃ front back, strip (typed small_world) = front ++ x ++ back.
Proof.
  cbn zeta. split; [reflexivity|]. split; [by_evaluation|].
  exact (proj2 (proj2 (gather_urls_splits_the_typed_line
                         {| arg_urls := None; arg_file := None;
                            arg_out := OUTPUT_DIR; arg_max := MAX_BYTES;
                            arg_no_index := false |} small_world eq_refl))).
Defined.

(** ** The loop of [main] *)

Local Open Scope nat_scope.

(** What one call does to a dict index: a success adds one record under a
    key that was free, anything else hands the index back. *)
Lemma download_image_index_cases (u : url) (out_dir : pystr)
    (session : get_result) (index : pyval) (max_bytes : Z) (e : env)
    (fs : filesystem) :
  let r := download_image u out_dir session index max_bytes e fs in
  (∃ p (d : gmap pystr pyval) digest record,
     r.1.1 = Saved p ∧ index = VDict d ∧ d !! digest = None
     ∧ r.2 = VDict (<[digest := record]> d))
  ∨ (not_saved r.1.1 ∧ r.2 = index).
Proof.
  cbn zeta. destruct session as [|resp]; [by right|].
  destruct (download_image_effects u out_dir resp index max_bytes e fs)
    as [(_ & why & ->)|[(_ & ? & _ & ->)|[(_ & _ & (err & ->) & _)
       |(_ & _ & q & _ & _ & [(d & -> & Hfree & -> & ->)|(err & -> & -> & _)])]]];
    cbn [fst snd]; try by right.
  left. by eexists _, _, _, _.
Qed.

Lemma download_image_keeps_file (u : url) (out_dir : pystr) (resp : response)
    (index : pyval) (max_bytes : Z) (e : env) (fs : filesystem) (p : pystr)
    (data : bytes) :
  p ≠ tmp_path_of u out_dir resp →
  fs !! p = Some data →
  (download_image u out_dir (Response resp) index max_bytes e fs).1.2 !! p
  = Some data.
Proof.
  intros Hne Hp.
  destruct (download_image_effects u out_dir resp index max_bytes e fs)
    as [(_ & why & ->)|[(_ & _ & -> & _)|[(_ & _ & (err & ->) & _)
       |(_ & _ & q & Hq & -> & _)]]]; cbn [fst snd].
  - done.
  - by rewrite lookup_delete_ne.
  - by rewrite lookup_insert_ne.
  - apply unique_path_is_not_tmp in Hq as [_ Hfree].
    rewrite lookup_insert_ne, lookup_delete_ne; [done..|]. congruence.
Qed.

Lemma fetch_loop_tally (w : world) (out_dir : pystr) (max_bytes : Z)
    (urls : list pystr) (t t' : tally) :
  fetch_loop w out_dir max_bytes urls t = Returned t' →
  success_count t' + skip_count t'
  = success_count t + skip_count t + length urls.
Proof.
  revert t. induction urls as [|x urls IH]; intros t H; cbn [fetch_loop] in H.
  - injection H as <-. cbn [length]. lia.
  - destruct (download_image _ _ _ _ _ _ _) as [[r fs'] index'].
    destruct r as [p|why|err|]; try done;
      apply IH in H; cbn [success_count skip_count length] in *; lia.
Qed.

Lemma fetch_loop_well_formed (w : world) (out_dir : pystr) (max_bytes : Z)
    (urls : list pystr) (t : tally) :
  well_formed_index (t_index t) →
  ∃ t', fetch_loop w out_dir max_bytes urls t = Returned t'
        ∧ well_formed_index (t_index t').
Proof.
  revert t. induction urls as [|x urls IH]; intros t Hwf; cbn [fetch_loop].
  - by exists t.
  - destruct (download_image_on_well_formed_index
                {| url_text := x; url_path := answer_path (web w x) |} out_dir
                (answer_session (web w x)) (t_index t) max_bytes
                (answer_env (web w x)) (t_fs t) Hwf) as [Hres Hwf'].
    destruct (download_image _ _ _ _ _ _ _) as [[r fs'] index'].
    cbn [fst snd] in *.
    destruct Hres as [[p ->]|[why ->]]; by apply IH.
Qed.

Lemma fetch_loop_index (w : world) (out_dir : pystr) (max_bytes : Z)
    (urls : list pystr) (t t' : tally) (d : gmap pystr pyval) :
  fetch_loop w out_dir max_bytes urls t = Returned t' →
  t_index t = VDict d →
  ∃ d' : gmap pystr pyval,
    t_index t' = VDict d' ∧ d ⊆ d'
    ∧ size d' + success_count t = size d + success_count t'.
Proof.
  revert t d. induction urls as [|x urls IH]; intros t d H Hd;
    cbn [fetch_loop] in H.
  - injection H as <-. exists d. by repeat split.
  - destruct (download_image_index_cases
                {| url_text := x; url_path := answer_path (web w x) |} out_dir
                (answer_session (web w x)) (t_index t) max_bytes
                (answer_env (web w x)) (t_fs t))
      as [(p & d0 & digest & record & Hr & Hi & Hfree & Hi')|[Hn Hi']];
      destruct (download_image _ _ _ _ _ _ _) as [[r fs'] index'];
      cbn [fst snd] in *; subst.
    + rewrite Hd in Hi. injection Hi as <-.
      destruct (IH _ _ H eq_refl) as (d' & Ht' & Hsub & Hsize).
      cbn [success_count] in Hsize.
      rewrite map_size_insert_None in Hsize by done.
      exists d'. split; [done|]. split; [|lia].
      etrans; [|exact Hsub]. by apply insert_subseteq.
    + destruct r as [p|why|err|]; try done.
      destruct (IH _ _ H Hd) as (d' & Ht' & Hsub & Hsize).
      by exists d'.
Qed.

Lemma fetch_loop_keeps_file (w : world) (out_dir : pystr) (max_bytes : Z)
    (urls : list pystr) (t : tally) (p : pystr) (data : bytes) :
  t_fs t !! p = Some data →
  (∀ x resp, x ∈ urls → answer_session (web w x) = Response resp →
             p ≠ tmp_path_of (url_of w x) out_dir resp) →
  match fetch_loop w out_dir max_bytes urls t with
  | Returned t' | Crashed _ t' => t_fs t' !! p = Some data
  | Hung => True
  end.
Proof.
  revert t. induction urls as [|x urls IH]; intros t Hp Htmp; cbn [fetch_loop].
  - done.
  - assert ((download_image {| url_text := x; url_path := answer_path (web w x) |}
               out_dir (answer_session (web w x)) (t_index t) max_bytes
               (answer_env (web w x)) (t_fs t)).1.2 !! p = Some data) as Hkeep.
    { destruct (answer_session (web w x)) as [|resp] eqn:E; [done|].
      apply download_image_keeps_file; [|done].
      apply (Htmp x resp); [by left | done]. }
    destruct (download_image _ _ _ _ _ _ _) as [[r fs'] index'].
    cbn [fst snd] in Hkeep.
    destruct r as [q|why|err|]; try done;
      apply IH; try done; intros y resp Hy; apply Htmp; by right.
Qed.

(** ** [main] *)

Lemma empty_index_well_formed : well_formed_index (VDict ∅).
Proof. exists ∅. split; [done|]. by intros digest record ?%lookup_empty_Some. Qed.

(** A run that does not read the index file, or finds none, or cannot
    parse it, starts from the empty dict. *)
Lemma initial_index_fresh (a : args) (w : world) (fs : filesystem) :
  arg_no_index a = true
  ∨ index_file_at w fs (path_join (ensure_output_dir (arg_out a)) INDEX_FILENAME)
    = Missing
  ∨ index_file_at w fs (path_join (ensure_output_dir (arg_out a)) INDEX_FILENAME)
    = Unreadable →
  initial_index a w fs = VDict ∅.
Proof.
  unfold initial_index. intros [->|[->| ->]]; [done|..];
    by destruct (arg_no_index a).
Qed.

(** The run of the small world returns (every call of it is answered and
    the disk is healthy): its index starts empty, since no index file is
    there. *)
Lemma small_run_returns : ∃ t, main small_args small_world ∅ = Returned t.
Proof.
  assert (well_formed_index (initial_index small_args small_world ∅)) as Hwf.
  { rewrite initial_index_fresh; [apply empty_index_well_formed|].
    right. left. reflexivity. }
  unfold main. fold (initial_index small_args small_world ∅).
  destruct (gather_urls small_args small_world) as [|x urls]; [by eexists|].
  destruct (fetch_loop_well_formed small_world
              (ensure_output_dir (arg_out small_args)) (arg_max small_args)
              (x :: urls)
              {| t_fs := ∅; t_index := initial_index small_args small_world ∅;
                 success_count := 0; skip_count := 0 |} Hwf)
    as (t' & -> & _).
  destruct (arg_no_index small_args); by eexists.
Qed.

(** X17: when [main] returns, every URL gathered has been counted once, as
    saved or as skipped: the two counters add up to the number of URLs. *)
Theorem main_counts_every_url (a : args) (w : world) (fs : filesystem)
    (t : tally) :
  main a w fs = Returned t →
  success_count t + skip_count t = length (gather_urls a w).
Proof.
  unfold main. intros H.
  destruct (gather_urls a w) as [|x urls] eqn:E.
  - by injection H as <-.
  - destruct (fetch_loop _ _ _ _ _) as [t'| |] eqn:Hloop; [|done..].
    apply fetch_loop_tally in Hloop. cbn [success_count skip_count] in Hloop.
    destruct (arg_no_index a); injection H as <-; cbn [success_count skip_count];
      lia.
Qed.

Lemma main_counts_every_url_witness :
  ∃ t, main small_args small_world ∅ = Returned t
       ∧ success_count t + skip_count t
         = length (gather_urls small_args small_world).
Proof.
  destruct small_run_returns as [t H]. exists t.
  split; [exact H|].
  exact (main_counts_every_url small_args small_world ∅ t H).
Defined.

(** The run of the small world, evaluated: both URLs of the file are saved. *)
Example small_run_counters :
  (let t := end_tally (main small_args small_world ∅) in
   (success_count t, skip_count t, length (gather_urls small_args small_world)))
  = (2, 0, 2).
Proof. by_evaluation. Qed.

(** X18: a run that starts from an index of the shape the routine writes
    (a dict of records with a filename; in particular the empty dict of a
    run without index, without index file, or with an index file that does
    not parse) and returns ends with an index of that shape; when the
    index is in use and there was a URL, the index file then holds the dump
    of that index.  So what a run writes to the index file never holds a
    record without filename. *)
Theorem main_leaves_a_well_formed_index (a : args) (w : world)
    (fs : filesystem) (t : tally) :
  well_formed_index (initial_index a w fs) →
  main a w fs = Returned t →
  well_formed_index (t_index t)
  ∧ (arg_no_index a = false → gather_urls a w ≠ [] →
     t_fs t !! path_join (ensure_output_dir (arg_out a)) INDEX_FILENAME
     = Some (json_dump w (t_index t))).
Proof.
  intros Hwf. unfold main. fold (initial_index a w fs).
  destruct (gather_urls a w) as [|x urls] eqn:E.
  - intros [= <-]. split; [done|]. by intros _ ?.
  - destruct (fetch_loop_well_formed w (ensure_output_dir (arg_out a)) (arg_max a)
                (x :: urls)
                {| t_fs := fs; t_index := initial_index a w fs;
                   success_count := 0; skip_count := 0 |} Hwf)
      as (t' & -> & Hwf').
    destruct (arg_no_index a); intros [= <-]; cbn [t_fs t_index].
    + split; [done|]. by intros ?.
    + split; [done|]. intros _ _. unfold save_index. apply lookup_insert_eq.
Qed.

Lemma main_leaves_a_well_formed_index_witness :
  well_formed_index (initial_index small_args small_world ∅)
  ∧ ∃ t, main small_args small_world ∅ = Returned t
         ∧ well_formed_index (t_index t)
         ∧ (arg_no_index small_args = false →
            gather_urls small_args small_world ≠ [] →
            t_fs t !! path_join (ensure_output_dir (arg_out small_args))
                        INDEX_FILENAME
            = Some (json_dump small_world (t_index t))).
Proof.
  assert (well_formed_index (initial_index small_args small_world ∅)) as H.
  { rewrite initial_index_fresh; [apply empty_index_well_formed|].
    right. left. reflexivity. }
  split; [exact H|].
  destruct small_run_returns as [t Ht]. exists t.
  split; [exact Ht|].
  exact (main_leaves_a_well_formed_index small_args small_world ∅ t H Ht).
Defined.

(** X19: over a run that returns and started from a dict index, no record
    is lost or changed, and the index gains exactly one record per saved
    file. *)
Theorem main_adds_one_record_per_saved_file (a : args) (w : world)
    (fs : filesystem) (t : tally) (d : gmap pystr pyval) :
  main a w fs = Returned t →
  initial_index a w fs = VDict d →
  ∃ d' : gmap pystr pyval,
    t_index t = VDict d'
    ∧ d ⊆ d'
    ∧ size d' = size d + success_count t.
Proof.
  unfold main. fold (initial_index a w fs). intros H Hd.
  destruct (gather_urls a w) as [|x urls] eqn:E.
  - injection H as <-. exists d. cbn [t_index success_count].
    split; [done|]. split; [done | lia].
  - destruct (fetch_loop _ _ _ _ _) as [t'| |] eqn:Hloop; [|done..].
    destruct (fetch_loop_index _ _ _ _ _ _ d Hloop Hd) as (d' & Ht' & Hsub & Hsize).
    cbn [success_count] in Hsize.
    exists d'. destruct (arg_no_index a); injection H as <-;
      cbn [t_index success_count]; (split; [done|]); (split; [done | lia]).
Qed.

Lemma main_adds_one_record_per_saved_file_witness :
  ∃ t (d' : gmap pystr pyval),
    main small_args small_world ∅ = Returned t
    ∧ initial_index small_args small_world ∅ = VDict ∅
    ∧ t_index t = VDict d'
    ∧ (∅ : gmap pystr pyval) ⊆ d'
    ∧ size d' = size (∅ : gmap pystr pyval) + success_count t.
Proof.
  destruct small_run_returns as [t H].
  assert (initial_index small_args small_world ∅ = VDict ∅) as Hd
    by by_evaluation.
  destruct (main_adds_one_record_per_saved_file small_args small_world ∅ t ∅ H Hd)
    as (d' & Hd').
  exists t, d'.
  exact (conj H (conj Hd Hd')).
Defined.

(** X20: a file that is in the directory when [main] starts, and sits
    neither at the index path nor at the temporary path of a call of the
    run, is still there with the same bytes when the run returns or breaks
    off with an exception: no download overwrites or removes it. *)
Theorem main_keeps_existing_files (a : args) (w : world) (fs : filesystem)
    (p : pystr) (data : bytes) :
  fs !! p = Some data →
  p ≠ path_join (ensure_output_dir (arg_out a)) INDEX_FILENAME →
  (∀ x resp, x ∈ gather_urls a w → answer_session (web w x) = Response resp →
             p ≠ tmp_path_of (url_of w x) (ensure_output_dir (arg_out a)) resp) →
  match main a w fs with
  | Returned t | Crashed _ t => t_fs t !! p = Some data
  | Hung => True
  end.
Proof.
  intros Hp Hindex Htmp. unfold main.
  destruct (gather_urls a w) as [|x urls] eqn:E; [done|].
  pose proof (fetch_loop_keeps_file w (ensure_output_dir (arg_out a)) (arg_max a)
                (x :: urls)
                {| t_fs := fs;
                   t_index := if arg_no_index a then VDict ∅
                              else load_index
                                     (index_file_at w fs
                                        (path_join (ensure_output_dir (arg_out a))
                                           INDEX_FILENAME));
                   success_count := 0; skip_count := 0 |} p data Hp Htmp)
    as Hloop.
  destruct (fetch_loop _ _ _ _ _) as [t'|err t'|]; [|done..].
  destruct (arg_no_index a); [done|].
  unfold save_index. cbn [t_fs]. by rewrite lookup_insert_ne.
Qed.

Lemma main_keeps_existing_files_witness :
  let fs : filesystem := {[ py "Fetched_Images/a.jpg" := bytes_of "first" ]} in
  fs !! py "Fetched_Images/a.jpg" = Some (bytes_of "first")
  ∧ match main small_args small_world fs with
    | Returned t | Crashed _ t =>
        t_fs t !! py "Fetched_Images/a.jpg" = Some (bytes_of "first")
    | Hung => True
    end.
Proof.
  cbn zeta. split; [reflexivity|].
  apply (main_keeps_existing_files small_args small_world
           {[ py "Fetched_Images/a.jpg" := bytes_of "first" ]}
           (py "Fetched_Images/a.jpg") (bytes_of "first")).
  - reflexivity.
  - by vm_compute.
  - intros x resp Hx Hresp.
    assert (gather_urls small_args small_world
            = [ py "https://x.test/a.jpg"; py "https://x.test/b.png" ])
      as E by by_evaluation.
    rewrite E in Hx.
    apply elem_of_cons in Hx as [->|Hx];
      [|apply elem_of_cons in Hx as [->|Hx]; [|by apply elem_of_nil in Hx]];
      vm_compute in Hresp; injection Hresp as <-; by vm_compute.
Defined.
